(** * 4_Pilares: sliding-window sensors, alert manager and light controller

    A shallow embedding of [4_Pilares.py].  Python's [float] is IEEE 754
    binary64 and is modelled by Rocq's primitive floats; [int] is [Z];
    [str] is [string]; exceptions are an explicit [Raise] outcome; the
    objects that are shared by reference (the sensors, the light
    controller) live in a store indexed by locations, and [print] appends
    a line to the standard output kept in the same state. *)

From stdpp Require Import gmap list strings.
From Stdlib Require Import ZArith QArith Qround Floats DecimalString.

Set Warnings "-inexact-float".
Local Open Scope Z_scope.

(** ** Exceptions and results *)

(** The exceptions the program can meet.  [ReferenceError] is the outcome
    of following a location that holds no object; Python has no such
    reference, and the properties below are stated for locations that are
    bound. *)
Inductive exn :=
| StatisticsError
| AttributeError
| OverflowError
| IndexError
| ReferenceError.

Inductive result (A : Type) :=
| Ok (a : A)
| Raise (e : exn).
Arguments Ok {A} a.
Arguments Raise {A} e.

Definition rbind {A B} (r : result A) (k : A -> result B) : result B :=
  match r with
  | Ok a => k a
  | Raise e => Raise e
  end.

(** ** Python numbers *)

Module Py.

(** [float(n)] for an [int]: the nearest binary64, ties to even. *)
Definition float_of_int (n : Z) : float :=
  SF2Prim (binary_normalize prec emax n 0 false).

(** [a / b] on two [int]s with [b > 0]: the correctly rounded quotient;
    CPython raises [OverflowError] when it does not fit a binary64. *)
Definition int_truediv (a : Z) (b : positive) : result float :=
  match a with
  | Z0 => Ok zero
  | Zpos p =>
      let r := SFdiv prec emax (S754_finite false p 0) (S754_finite false b 0) in
      match r with
      | S754_infinity _ => Raise OverflowError
      | _ => Ok (SF2Prim r)
      end
  | Zneg p =>
      let r := SFdiv prec emax (S754_finite true p 0) (S754_finite false b 0) in
      match r with
      | S754_infinity _ => Raise OverflowError
      | _ => Ok (SF2Prim r)
      end
  end.

(** [x.as_integer_ratio()] on a float: the exact value of a finite [x];
    [None] stands for the [OverflowError] / [ValueError] of an infinity or
    a NaN.  A [Fraction] is a [Q], reduced where its numerator and
    denominator are read. *)
Definition as_integer_ratio (x : float) : option Q :=
  match Prim2SF x with
  | S754_zero _ => Some (0 # 1)
  | S754_finite s m e =>
      let n := if s then Zneg m else Zpos m in
      match e with
      | Zneg k => Some (Qred (n # Pos.shiftl 1 (Npos k)))
      | _ => Some (Z.shiftl n e # 1)
      end
  | _ => None
  end%Q.

(** [float(Fraction)]: numerator / denominator on [int]s. *)
Definition float_of_Fraction (q : Q) : result float :=
  let r := Qred q in int_truediv (Qnum r) (Qden r).

(** [n.bit_length()] for [n >= 0]. *)
Definition bit_length (n : Z) : Z :=
  if n =? 0 then 0 else Z.log2 n + 1.

End Py.

(** ** The [statistics] module of the Python standard library

    The program imports [mean] and [stdev] from it; they are modelled after
    CPython 3.11 on lists of floats.  Both sum the exact values of the data
    as fractions and round once at the end. *)

Module statistics.

(** [_sum]: the exact total of finite data; when an infinity or a NaN is
    present the finite items are ignored and the others are added up as
    floats, starting from the integer 0. *)
Definition nonfinite (data : list float) : list float :=
  List.filter (fun x => negb (is_finite x)) data.

Definition exact_values (data : list float) : list Q :=
  omap Py.as_integer_ratio data.

Definition Qsum (l : list Q) : Q := fold_left Qplus l (0 # 1)%Q.

Definition _sum (data : list float) : (Q + float) * Z :=
  let count := Z.of_nat (length data) in
  match nonfinite data with
  | [] => (inl (Qsum (exact_values data)), count)
  | nf => (inr (fold_left PrimFloat.add nf zero), count)
  end.

(** [_ss]: the exact sum of squared deviations from the exact mean. *)
Definition _ss (data : list float) : (Q + float) * Z :=
  let count := Z.of_nat (length data) in
  match nonfinite data with
  | [] =>
      if count =? 0 then (inl (0 # 1)%Q, count)
      else
        let sx := Qsum (exact_values data) in
        let sxx := Qsum (map (fun q => q * q)%Q (exact_values data)) in
        (inl (((count # 1) * sxx - sx * sx) / (count # 1))%Q, count)
  | nf => (inr (fold_left PrimFloat.add nf zero), count)
  end.

Definition mean (data : list float) : result float :=
  let '(total, n) := _sum data in
  if n <? 1 then Raise StatisticsError
  else
    match total with
    | inl q => Py.float_of_Fraction (q / (n # 1))%Q
    | inr f => Ok (f / Py.float_of_int n)%float
    end.

(** [_integer_sqrt_of_frac_rto]: the square root of [n/m] rounded to an
    integer, to odd. *)
Definition _integer_sqrt_of_frac_rto (n m : Z) : Z :=
  let a := Z.sqrt (n / m) in
  Z.lor a (if a * a * m =? n then 0 else 1).

Definition _sqrt_bit_width : Z := 2 * 53 + 3.

Definition _float_sqrt_of_frac (n : Z) (m : positive) : result float :=
  let q := (Py.bit_length n - Py.bit_length (Zpos m) - _sqrt_bit_width) / 2 in
  if 0 <=? q then
    Py.int_truediv
      (Z.shiftl (_integer_sqrt_of_frac_rto n (Z.shiftl (Zpos m) (2 * q))) q) 1
  else
    Py.int_truediv
      (_integer_sqrt_of_frac_rto (Z.shiftl n (- 2 * q)) (Zpos m))
      (Pos.shiftl 1 (Z.to_N (- q))).

(** [stdev]: with an infinity or a NaN in the data the mean square is a
    float, whose [numerator] does not exist. *)
Definition stdev (data : list float) : result float :=
  let '(ss, n) := _ss data in
  if n <? 2 then Raise StatisticsError
  else
    match ss with
    | inl q =>
        let mss := Qred (q / (n - 1 # 1))%Q in
        _float_sqrt_of_frac (Qnum mss) (Qden mss)
    | inr _ => Raise AttributeError
    end.

End statistics.

(** ** String formatting *)

Module Fmt.

(** Round a non-negative fraction [n/d] to the nearest integer, ties to
    even. *)
Definition round_half_even (n : Z) (d : positive) : Z :=
  let '(k, r) := Z.div_eucl n (Zpos d) in
  match 2 * r ?= Zpos d with
  | Lt => k
  | Gt => k + 1
  | Eq => if Z.even k then k else k + 1
  end.

Definition digits (n : Z) : string := NilZero.string_of_uint (N.to_uint (Z.to_N n)).

Definition two_digits (n : Z) : string :=
  if n <? 10 then "0" +:+ digits n else digits n.

(** [format(x, ".2f")]: the exact value of [x] rounded to two decimals,
    ties to even, with the sign of [x] kept also when the digits are all
    zero. *)
Definition format_2f (x : float) : string :=
  match Prim2SF x with
  | S754_nan => "nan"
  | S754_infinity s => if s then "-inf" else "inf"
  | S754_zero s => (if s then "-" else "") +:+ "0.00"
  | S754_finite s m e =>
      let c :=
        match e with
        | Zneg k => round_half_even (100 * Zpos m) (Pos.shiftl 1 (Npos k))
        | _ => 100 * Z.shiftl (Zpos m) e
        end in
      (if s then "-" else "") +:+ digits (c / 100) +:+ "." +:+ two_digits (c mod 100)
  end.

End Fmt.

(** ** Sensors *)

(** The fields of the dataclass [Sensor]; the abstract methods are given by
    the subclasses below. *)
Record Sensor := mkSensor {
  id : string;
  ventana : Z;
  _calibracion : float;
  _buffer : list float
}.

Definition set_buffer (s : Sensor) (b : list float) : Sensor :=
  {| id := id s; ventana := ventana s; _calibracion := _calibracion s;
     _buffer := b |}.

(** [l.pop(0)]: removes and returns the first item; [IndexError] on an empty
    list. *)
Definition pop0 {A} (l : list A) : result (A * list A) :=
  match l with
  | [] => Raise IndexError
  | x :: l' => Ok (x, l')
  end.

(** [Sensor.leer] *)
Definition leer (s : Sensor) (valor : float) : result Sensor :=
  let v := (valor + _calibracion s)%float in
  let b := _buffer s ++ [v] in
  if ventana s <? Z.of_nat (length b) then
    rbind (pop0 b) (fun '(_, b') => Ok (set_buffer s b'))
  else Ok (set_buffer s b).

(** [Sensor.promedio] *)
Definition promedio (s : Sensor) : result float :=
  match _buffer s with
  | [] => Ok zero
  | _ :: _ => statistics.mean (_buffer s)
  end.

(** The three subclasses, each with its own threshold field. *)
Inductive SensorObj :=
| SensorTemperatura (base : Sensor) (umbral : float)
| SensorVibracion (base : Sensor) (rms_umbral : float)
| SensorMovimento (base : Sensor) (mov_umbral : float).

Definition base (o : SensorObj) : Sensor :=
  match o with
  | SensorTemperatura b _ | SensorVibracion b _ | SensorMovimento b _ => b
  end.

Definition set_base (o : SensorObj) (b : Sensor) : SensorObj :=
  match o with
  | SensorTemperatura _ u => SensorTemperatura b u
  | SensorVibracion _ u => SensorVibracion b u
  | SensorMovimento _ u => SensorMovimento b u
  end.

(** [x >= y] on floats *)
Definition float_ge (x y : float) : bool := (y <=? x)%float.

(** [en_alerta], by subclass *)
Definition en_alerta (o : SensorObj) : result bool :=
  match o with
  | SensorTemperatura b umbral =>
      rbind (promedio b) (fun p => Ok (float_ge p umbral))
  | SensorVibracion b rms_umbral =>
      rbind (promedio b) (fun p => Ok (float_ge (abs p) rms_umbral))
  | SensorMovimento b mov_umbral =>
      if Z.of_nat (length (_buffer b)) <? 2 then Ok false
      else
        rbind (statistics.stdev (_buffer b)) (fun desviacion_estandar =>
        Ok (float_ge desviacion_estandar mov_umbral))
  end.

(** [obtener_unidad], by subclass *)
Definition obtener_unidad (o : SensorObj) : string :=
  match o with
  | SensorTemperatura _ _ => "°C"
  | SensorVibracion _ _ => "m/s²"
  | SensorMovimento _ _ => "m/s"
  end.

(** The dataclass constructors with every default taken. *)
Definition nuevo_Sensor (id : string) : Sensor :=
  {| id := id; ventana := 5; _calibracion := 0; _buffer := [] |}.
Definition nuevo_SensorTemperatura (id : string) : SensorObj :=
  SensorTemperatura (nuevo_Sensor id) 80.0.
Definition nuevo_SensorVibracion (id : string) : SensorObj :=
  SensorVibracion (nuevo_Sensor id) 2.5.
Definition nuevo_SensorMovimento (id : string) : SensorObj :=
  SensorMovimento (nuevo_Sensor id) 1.0.

(** Several readings in a row: [for val in vals: s.leer(val)]. *)
Fixpoint leer_todos (s : Sensor) (vals : list float) : result Sensor :=
  match vals with
  | [] => Ok s
  | v :: vals' => rbind (leer s v) (fun s' => leer_todos s' vals')
  end.

Definition leer_obj (o : SensorObj) (vals : list float) : result SensorObj :=
  rbind (leer_todos (base o) vals) (fun b => Ok (set_base o b)).

(** ** Notifiers *)

Inductive Notificador :=
| NotificadorEmail (_destinatario : string)
| NotificadorWebhook (_url : string).

(** The line that [enviar] prints. *)
Definition linea_enviar (n : Notificador) (mensaje : string) : string :=
  match n with
  | NotificadorEmail d => "[EMAIL a " +:+ d +:+ "] " +:+ mensaje
  | NotificadorWebhook u => "[WEBHOOK " +:+ u +:+ "] " +:+ mensaje
  end.

(** ** The object store and the program state *)

Definition loc := nat.

Record GestorAlertas := mkGestor {
  _sensores : list loc;
  _notificadores : list Notificador
}.

Record ControladorLuces := mkControlador {
  sensor : loc;
  luces_encendidas : bool
}.

(** Sensors and light controllers are objects held by reference; [stdout]
    holds the text of each [print] call, oldest first.  Every sensor has a
    buffer of its own, as the dataclass gives it by default. *)
Record World := mkWorld {
  sensores : gmap loc SensorObj;
  controladores : gmap loc ControladorLuces;
  stdout : list string
}.

Definition M (A : Type) : Type := World -> result (A * World).

Definition ret {A} (a : A) : M A := fun w => Ok (a, w).
Definition bind {A B} (m : M A) (k : A -> M B) : M B :=
  fun w => rbind (m w) (fun '(a, w') => k a w').
Definition lift {A} (r : result A) : M A :=
  fun w => rbind r (fun a => Ok (a, w)).

Notation "'let*' x ':=' m 'in' k" := (bind m (fun x => k))
  (at level 10, x pattern, m at level 100, k at level 200, only parsing).

Definition print (linea : string) : M unit :=
  fun w => Ok (tt, {| sensores := sensores w; controladores := controladores w;
                      stdout := stdout w ++ [linea] |}).

Definition get_sensor (l : loc) : M SensorObj :=
  fun w => match sensores w !! l with
           | Some o => Ok (o, w)
           | None => Raise ReferenceError
           end.

Definition put_sensor (l : loc) (o : SensorObj) : M unit :=
  fun w => Ok (tt, {| sensores := <[l := o]> (sensores w);
                      controladores := controladores w; stdout := stdout w |}).

Definition get_controlador (c : loc) : M ControladorLuces :=
  fun w => match controladores w !! c with
           | Some x => Ok (x, w)
           | None => Raise ReferenceError
           end.

Definition put_controlador (c : loc) (x : ControladorLuces) : M unit :=
  fun w => Ok (tt, {| sensores := sensores w;
                      controladores := <[c := x]> (controladores w);
                      stdout := stdout w |}).

(** [for x in l: body(x)] *)
Fixpoint for_ {A} (l : list A) (body : A -> M unit) : M unit :=
  match l with
  | [] => ret tt
  | x :: l' => let* _ := body x in for_ l' body
  end.

(** Method calls through a reference. *)
Definition call_leer (l : loc) (valor : float) : M unit :=
  let* o := get_sensor l in
  let* b := lift (leer (base o) valor) in
  put_sensor l (set_base o b).

Definition call_promedio (l : loc) : M float :=
  let* o := get_sensor l in lift (promedio (base o)).

Definition call_en_alerta (l : loc) : M bool :=
  let* o := get_sensor l in lift (en_alerta o).

Definition enviar (n : Notificador) (mensaje : string) : M unit :=
  print (linea_enviar n mensaje).

(** ** The alert manager *)

Definition mensaje_alerta (sid : string) (avg : float) : string :=
  "ALERTA Sensor " +:+ sid +:+ " en umbral (avg=" +:+ Fmt.format_2f avg +:+ ")".

(** [GestorAlertas.evaluar_y_notificar]; [cuerpo_evaluar] is the body of
    its loop over the sensors. *)
Definition cuerpo_evaluar (g : GestorAlertas) (s : loc) : M unit :=
  let* a := call_en_alerta s in
  if a : bool then
    let* o := get_sensor s in
    let* p := call_promedio s in
    let msg := mensaje_alerta (id (base o)) p in
    for_ (_notificadores g) (fun n => enviar n msg)
  else ret tt.

Definition evaluar_y_notificar (g : GestorAlertas) : M unit :=
  for_ (_sensores g) (cuerpo_evaluar g).

(** ** The light controller *)

(** [ControladorLuces.__init__] *)
Definition init_ControladorLuces (sensor_movimiento : loc) : ControladorLuces :=
  {| sensor := sensor_movimiento; luces_encendidas := false |}.

Definition encender_luces (c : loc) : M unit :=
  let* x := get_controlador c in
  if negb (luces_encendidas x) then
    let* _ := put_controlador c {| sensor := sensor x; luces_encendidas := true |} in
    print "LUCES ENCENDIDAS"
  else ret tt.

Definition apagar_luces (c : loc) : M unit :=
  let* x := get_controlador c in
  if luces_encendidas x then
    let* _ := put_controlador c {| sensor := sensor x; luces_encendidas := false |} in
    print "LUCES APAGADAS"
  else ret tt.

Definition verificar_movimiento (c : loc) : M unit :=
  let* x := get_controlador c in
  let* a := call_en_alerta (sensor x) in
  if a : bool then encender_luces c
  else let* _ := apagar_luces c in print "No hay suficiente movimiento detectado".

(** * The vocabulary of the properties *)

(** ** Windows *)

(** The last [n] items of a list. *)
Definition ultimos {A} (n : nat) (l : list A) : list A :=
  drop (length l - n)%nat l.

(** The reading that [leer] stores. *)
Definition calibrado (s : Sensor) (valor : float) : float :=
  (valor + _calibracion s)%float.

(** ** Sends *)

Definition add_stdout (w : World) (lineas : list string) : World :=
  {| sensores := sensores w; controladores := controladores w;
     stdout := stdout w ++ lineas |}.

(** What the manager is to do, in the words of its description: for each
    sensor in registration order that is in alert, one message with the
    sensor's id and its average to 2 decimals, sent to every notifier in
    registration order.  A call is a notifier with the message it gets. *)
Definition envios_sensor (o : SensorObj) (ns : list Notificador)
  : result (list (Notificador * string)) :=
  rbind (en_alerta o) (fun a =>
    if a : bool then
      rbind (promedio (base o)) (fun p =>
        Ok (map (fun n => (n, mensaje_alerta (id (base o)) p)) ns))
    else Ok []).

Fixpoint envios (os : list SensorObj) (ns : list Notificador)
  : result (list (Notificador * string)) :=
  match os with
  | [] => Ok []
  | o :: os' =>
      rbind (envios_sensor o ns) (fun l =>
      rbind (envios os' ns) (fun l' => Ok (l ++ l')))
  end.

Definition linea_de (c : Notificador * string) : string :=
  linea_enviar (fst c) (snd c).

(** A sensor whose [en_alerta] returns true. *)
Definition alertando (o : SensorObj) : bool :=
  match en_alerta o with
  | Ok true => true
  | _ => false
  end.

(** The message a sensor in alert gets. *)
Definition mensaje_de (o : SensorObj) : string :=
  match promedio (base o) with
  | Ok p => mensaje_alerta (id (base o)) p
  | Raise _ => ""
  end.


(** The exact sample variance of finite data: the sum of the squared
    deviations from the exact mean over the count less one, the fraction
    whose square root [stdev] rounds. *)
Definition varianza_exacta (data : list float) : Q :=
  let n := Z.of_nat (length data) in
  let sx := statistics.Qsum (statistics.exact_values data) in
  let sxx := statistics.Qsum
               (map (fun q => q * q)%Q (statistics.exact_values data)) in
  Qred ((((n # 1) * sxx - sx * sx) / (n # 1)) / (n - 1 # 1))%Q.

(** ** Light effects *)

Definition msg_encendidas : string := "LUCES ENCENDIDAS".
Definition msg_apagadas : string := "LUCES APAGADAS".
Definition msg_sin_movimiento : string :=
  "No hay suficiente movimiento detectado".

(** The state after [verificar_movimiento] when [en_alerta] returned [a]. *)
Definition tras_verificar (c : loc) (x : ControladorLuces) (a : bool)
    (w : World) : World :=
  match a, luces_encendidas x with
  | true, true => w
  | true, false =>
      mkWorld (sensores w)
        (<[c := mkControlador (sensor x) true]> (controladores w))
        (stdout w ++ [msg_encendidas])
  | false, true =>
      mkWorld (sensores w)
        (<[c := mkControlador (sensor x) false]> (controladores w))
        (stdout w ++ [msg_apagadas; msg_sin_movimiento])
  | false, false =>
      mkWorld (sensores w) (controladores w)
        (stdout w ++ [msg_sin_movimiento])
  end.

(** ** Examples *)

(** The readings of the demonstration script, one prefix after another. *)
Definition lecturas_movimiento : list float := [0.0; 1.0; 0.2; 1.5]%float.

Definition alerta_tras (o : SensorObj) (vals : list float) : result bool :=
  rbind (leer_obj o vals) en_alerta.

Module Ejemplo.

Definition t1 : SensorObj :=
  SensorTemperatura (mkSensor "T1" 5 0 [90; 104; 156]%float) 80.
Definition v1 : SensorObj :=
  SensorVibracion (mkSensor "V1" 5 0 [0.5; 1.0; 2.0]%float) 2.5.
Definition v2 : SensorObj :=
  SensorVibracion (mkSensor "V2" 5 0 [3.0; 3.0]%float) 2.5.
Definition m1 : SensorObj :=
  SensorMovimento (mkSensor "M1" 5 0 [0.0; 1.0; 0.2; 1.5]%float) 1.

Definition email : Notificador := NotificadorEmail "example@example.com".
Definition webhook : Notificador := NotificadorWebhook "http://webhook.com".

Definition gestor : GestorAlertas :=
  mkGestor [0; 1; 2]%nat [email; webhook].

(** Two sensors in alert and one that is not. *)
Definition mundo : World :=
  mkWorld {[ 0%nat := t1; 1%nat := v1; 2%nat := v2 ]} ∅ [].

(** The objects of the demonstration script after its readings. *)
Definition mundo_script : World :=
  mkWorld {[ 0%nat := t1; 1%nat := v1; 2%nat := m1 ]}
          {[ 0%nat := init_ControladorLuces 2%nat ]} [].

(** A motion sensor with two finite readings whose deviation is too large
    for a float, registered before a sensor in alert. *)
Definition desborda : SensorObj :=
  SensorMovimento (mkSensor "M9" 5 0 [-1.7e308; 1.7e308]%float) 1.



End Ejemplo.

Module EjemploLuces.

(** A motion sensor in alert: the sample standard deviation of 0, 2 is the
    square root of 2. *)
Definition m2 : SensorObj :=
  SensorMovimento (mkSensor "M2" 5 0 [0; 2]%float) 1.

Definition mundo : World :=
  mkWorld {[ 0%nat := m2 ]} {[ 0%nat := init_ControladorLuces 0%nat ]} [].

(** The same after one call of [verificar_movimiento]. *)
Definition mundo_encendido : World :=
  mkWorld {[ 0%nat := m2 ]}
    (<[ 0%nat := mkControlador 0%nat true ]>
       {[ 0%nat := init_ControladorLuces 0%nat ]})
    [msg_encendidas].

End EjemploLuces.

(** ** Sequences of calls *)

(** What a user of the objects can do with one light controller at hand:
    add a reading to a sensor, check the movement, evaluate the alerts of a
    manager. *)
Inductive accion :=
| Leer (l : loc) (valor : float)
| Verificar
| Evaluar (g : GestorAlertas).

Definition ejecutar (c : loc) (a : accion) : M unit :=
  match a with
  | Leer l valor => call_leer l valor
  | Verificar => verificar_movimiento c
  | Evaluar g => evaluar_y_notificar g
  end.

(** How many [print] calls had exactly this text. *)
Definition cuenta (m : string) (out : list string) : Z :=
  Z.of_nat (length (filter (fun l => l = m) out)).

(** The [print] calls of LUCES ENCENDIDAS less those of LUCES APAGADAS. *)
Definition balance (out : list string) : Z :=
  cuenta msg_encendidas out - cuenta msg_apagadas out.

(** * Properties *)

(** ** The moving window *)

Section Ventana.

Lemma leer_ok (s : Sensor) (valor : float) :
  leer s valor =
  Ok (set_buffer s
        (if ventana s <? Z.of_nat (length (_buffer s ++ [calibrado s valor]))
         then tail (_buffer s ++ [calibrado s valor])
         else _buffer s ++ [calibrado s valor])).
Proof.
  unfold leer, calibrado.
  destruct (ventana s <? _) eqn:E; [|reflexivity].
  destruct (_buffer s); reflexivity.
Qed.

Lemma ultimos_all {A} (n : nat) (l : list A) :
  (length l <= n)%nat -> ultimos n l = l.
Proof.
  intros H. unfold ultimos.
  replace (length l - n)%nat with 0%nat by lia. reflexivity.
Qed.

Lemma ultimos_length {A} (n : nat) (l : list A) :
  length (ultimos n l) = Nat.min n (length l).
Proof. unfold ultimos. rewrite length_drop. lia. Qed.

Lemma ultimos_app_ge {A} (n : nat) (l r : list A) :
  (n <= length r)%nat -> ultimos n (l ++ r) = ultimos n r.
Proof.
  intros H. unfold ultimos.
  rewrite drop_app, length_app.
  rewrite (drop_ge l) by lia. simpl. f_equal. lia.
Qed.

Lemma ultimos_tail_app {A} (n : nat) (l r : list A) :
  length l = S n -> ultimos n (tail l ++ r) = ultimos n (l ++ r).
Proof.
  intros H. destruct l as [|x l]; [discriminate|]. simpl in *.
  unfold ultimos. simpl. rewrite !length_app.
  replace (S (length l + length r) - n)%nat
    with (S (length l + length r - n)) by lia.
  reflexivity.
Qed.

(** One reading keeps the window and leaves the last [ventana] items of
    what was there plus the new calibrated reading. *)
Lemma leer_ventana (s : Sensor) (valor : float) :
  Z.of_nat (length (_buffer s)) <= ventana s ->
  exists s', leer s valor = Ok s' /\
    id s' = id s /\ ventana s' = ventana s /\
    _calibracion s' = _calibracion s /\
    Z.of_nat (length (_buffer s')) <= ventana s /\
    forall r, ultimos (Z.to_nat (ventana s)) (_buffer s' ++ r) =
              ultimos (Z.to_nat (ventana s))
                (_buffer s ++ calibrado s valor :: r).
Proof.
  intros H. rewrite leer_ok. eexists; split; [reflexivity|].
  simpl. repeat split; try reflexivity.
  - destruct (ventana s <? _) eqn:E.
    + destruct (_buffer s); simpl in *; [lia|]. rewrite length_app in *. simpl in *. lia.
    + apply Z.ltb_ge in E. exact E.
  - intros r. destruct (ventana s <? _) eqn:E.
    + apply Z.ltb_lt in E. rewrite length_app in E. simpl in E.
      rewrite ultimos_tail_app.
      * rewrite <- app_assoc. reflexivity.
      * rewrite length_app. simpl. lia.
    + rewrite <- app_assoc. reflexivity.
Qed.

Lemma leer_todos_ventana (vals : list float) : forall s : Sensor,
  Z.of_nat (length (_buffer s)) <= ventana s ->
  exists s', leer_todos s vals = Ok s' /\
    id s' = id s /\ ventana s' = ventana s /\
    _calibracion s' = _calibracion s /\
    Z.of_nat (length (_buffer s')) <= ventana s /\
    _buffer s' =
      ultimos (Z.to_nat (ventana s)) (_buffer s ++ map (calibrado s) vals).
Proof.
  induction vals as [|v vals IH]; intros s H; simpl.
  - exists s. repeat split; try reflexivity; [exact H|].
    rewrite app_nil_r, ultimos_all; [reflexivity | lia].
  - destruct (leer_ventana s v H) as (s1 & E1 & Hid & Hv & Hc & Hl & Hu).
    rewrite E1. simpl.
    destruct (IH s1) as (s' & E' & Hid' & Hv' & Hc' & Hl' & Hb').
    { rewrite Hv. exact Hl. }
    exists s'. rewrite E'. repeat split; try congruence.
    rewrite Hb', Hv.
    replace (map (calibrado s1) vals) with (map (calibrado s) vals).
    + apply Hu.
    + apply map_ext. intros x. unfold calibrado. rewrite Hc. reflexivity.
Qed.

End Ventana.

(** C1: from a sensor whose window size is at least 1 and whose buffer is
    within the window (a fresh sensor has an empty one), any sequence of
    [leer] calls succeeds and leaves at most [ventana] readings; once at
    least [ventana] values have been recorded the buffer is exactly the last
    [ventana] calibrated values, [valor + _calibracion], oldest first, and
    [promedio] is [statistics.mean] of those. *)
Theorem ventana_movil_fifo (s : Sensor) (vals : list float) :
  1 <= ventana s ->
  Z.of_nat (length (_buffer s)) <= ventana s ->
  exists s', leer_todos s vals = Ok s' /\
    ventana s' = ventana s /\
    Z.of_nat (length (_buffer s')) <= ventana s /\
    (ventana s <= Z.of_nat (length vals) ->
     _buffer s' =
       ultimos (Z.to_nat (ventana s))
         (map (fun valor => valor + _calibracion s)%float vals) /\
     length (_buffer s') = Z.to_nat (ventana s) /\
     promedio s' =
       statistics.mean
         (ultimos (Z.to_nat (ventana s))
            (map (fun valor => valor + _calibracion s)%float vals))).
Proof.
  intros Hw Hlen.
  destruct (leer_todos_ventana vals s Hlen) as (s' & E & _ & Hv & _ & Hl & Hb).
  exists s'. split; [exact E|]. split; [exact Hv|]. split; [exact Hl|].
  intros Hn.
  change (fun valor => (valor + _calibracion s)%float) with (calibrado s).
  assert (Hb' : _buffer s' =
    ultimos (Z.to_nat (ventana s)) (map (calibrado s) vals)).
  { rewrite Hb. apply ultimos_app_ge. rewrite length_map. lia. }
  assert (Hlen' : length (_buffer s') = Z.to_nat (ventana s)).
  { rewrite Hb', ultimos_length, length_map. lia. }
  split; [exact Hb'|]. split; [exact Hlen'|].
  unfold promedio. rewrite <- Hb'.
  destruct (_buffer s'); [simpl in Hlen'; lia | reflexivity].
Qed.

Lemma ventana_movil_fifo_witness :
  let s := nuevo_Sensor "T1" in
  let vals := [1; 2; 3; 4; 5; 6; 7]%float in
  1 <= ventana s /\
  Z.of_nat (length (_buffer s)) <= ventana s /\
  exists s', leer_todos s vals = Ok s' /\
    ventana s' = ventana s /\
    Z.of_nat (length (_buffer s')) <= ventana s /\
    (ventana s <= Z.of_nat (length vals) ->
     _buffer s' =
       ultimos (Z.to_nat (ventana s))
         (map (fun valor => valor + _calibracion s)%float vals) /\
     length (_buffer s') = Z.to_nat (ventana s) /\
     promedio s' =
       statistics.mean
         (ultimos (Z.to_nat (ventana s))
            (map (fun valor => valor + _calibracion s)%float vals))).
Proof.
  intros s vals.
  assert (H1 : 1 <= ventana s) by (simpl; lia).
  assert (H2 : Z.of_nat (length (_buffer s)) <= ventana s) by (simpl; lia).
  split; [exact H1|]. split; [exact H2|].
  exact (ventana_movil_fifo s vals H1 H2).
Defined.

(** C10: with a window size of 0 and an empty buffer every [leer] succeeds
    and leaves the buffer empty, so that after any sequence of readings
    [promedio] is 0.0 and the length is still within the window. *)
Theorem ventana_cero (s : Sensor) (vals : list float) :
  ventana s = 0 ->
  _buffer s = [] ->
  (forall valor, leer s valor = Ok s) /\
  leer_todos s vals = Ok s /\
  promedio s = Ok zero /\
  Z.of_nat (length (_buffer s)) <= ventana s.
Proof.
  intros Hw Hb.
  assert (Hleer : forall valor, leer s valor = Ok s).
  { intros valor. rewrite leer_ok, Hw, Hb. simpl.
    destruct s; simpl in *; subst; reflexivity. }
  split; [exact Hleer|]. split.
  - induction vals as [|v vals IH]; simpl; [reflexivity|].
    rewrite Hleer. simpl. exact IH.
  - split.
    + unfold promedio. rewrite Hb. reflexivity.
    + rewrite Hb, Hw. simpl. lia.
Qed.

Lemma ventana_cero_witness :
  let s := mkSensor "Z0" 0 0.5%float [] in
  let vals := [3.0; -1.5; 8.25]%float in
  ventana s = 0 /\ _buffer s = [] /\
  (forall valor, leer s valor = Ok s) /\
  leer_todos s vals = Ok s /\
  promedio s = Ok zero /\
  Z.of_nat (length (_buffer s)) <= ventana s.
Proof.
  intros s vals.
  split; [reflexivity|]. split; [reflexivity|].
  exact (ventana_cero s vals eq_refl eq_refl).
Defined.

(** ** The average *)

(** C9: [promedio] of an empty buffer is exactly 0.0, and reading the
    average through a reference returns the state it was given: the buffer
    and every other object are as before. *)
Theorem promedio_vacio_y_puro :
  (forall s : Sensor, _buffer s = [] -> promedio s = Ok zero) /\
  (forall (l : loc) (w : World) (o : SensorObj),
     sensores w !! l = Some o -> _buffer (base o) = [] ->
     call_promedio l w = Ok (zero, w)) /\
  (forall (l : loc) (w w' : World) (p : float),
     call_promedio l w = Ok (p, w') -> w' = w).
Proof.
  split; [|split].
  - intros s H. unfold promedio. rewrite H. reflexivity.
  - intros l w o Hl Hb. unfold call_promedio, bind, get_sensor, lift.
    rewrite Hl. simpl. unfold promedio. rewrite Hb. reflexivity.
  - intros l w w' p. unfold call_promedio, bind, get_sensor, lift.
    destruct (sensores w !! l) as [o|]; simpl; [|discriminate].
    destruct (promedio (base o)); simpl; [|discriminate].
    intros H. injection H as _ H. symmetry. exact H.
Qed.

Lemma promedio_vacio_y_puro_witness :
  let w := mkWorld {[ 0%nat := nuevo_SensorVibracion "V1" ]} ∅ ["antes"] in
  promedio (nuevo_Sensor "T1") = Ok zero /\
  call_promedio 0%nat w = Ok (zero, w).
Proof.
  intros w. split.
  - exact (proj1 promedio_vacio_y_puro (nuevo_Sensor "T1") eq_refl).
  - exact (proj1 (proj2 promedio_vacio_y_puro) 0%nat w
             (nuevo_SensorVibracion "V1") eq_refl eq_refl).
Defined.

(** ** The alert conditions *)

Lemma rbind_Ok_inv {A B} (r : result A) (k : A -> result B) (b : B) :
  rbind r k = Ok b <-> exists a, r = Ok a /\ k a = Ok b.
Proof.
  destruct r as [a|e]; simpl; split.
  - intros H. exists a. split; [reflexivity | exact H].
  - intros (a' & Ha & Hk). injection Ha as ->. exact Hk.
  - discriminate.
  - intros (a' & Ha & _). discriminate.
Qed.

Lemma rbind_Ok_bool_inv {A} (r : result A) (f : A -> bool) (b : bool) :
  rbind r (fun a => Ok (f a)) = Ok b <-> exists a, r = Ok a /\ f a = b.
Proof.
  rewrite rbind_Ok_inv. split; intros (a & Ha & Hf); exists a; split;
    try exact Ha; congruence.
Qed.

(** C5: a temperature sensor is in alert exactly when its average is
    greater than or equal to [umbral], which is 80.0 by default; after
    90, 104, 156 in a fresh sensor (window 5) the average is
    116.66666666666667, printed 116.67, and the sensor is in alert; after
    10, 20 it is not. *)
Theorem temperatura_en_alerta :
  (forall (b : Sensor) (umbral : float),
     (en_alerta (SensorTemperatura b umbral) = Ok true <->
      exists p, promedio b = Ok p /\ (umbral <=? p)%float = true) /\
     (en_alerta (SensorTemperatura b umbral) = Ok false <->
      exists p, promedio b = Ok p /\ (umbral <=? p)%float = false)) /\
  (forall sid, nuevo_SensorTemperatura sid =
               SensorTemperatura (mkSensor sid 5 0 []) 80) /\
  rbind (leer_obj (nuevo_SensorTemperatura "T1") [90; 104; 156]%float)
    (fun o => rbind (promedio (base o)) (fun p =>
              rbind (en_alerta o) (fun a => Ok (p, Fmt.format_2f p, a))))
  = Ok (116.66666666666667%float, "116.67", true) /\
  rbind (leer_obj (nuevo_SensorTemperatura "T1") [10; 20]%float)
    (fun o => rbind (promedio (base o)) (fun p =>
              rbind (en_alerta o) (fun a => Ok (p, a))))
  = Ok (15%float, false).
Proof.
  split; [|split; [|split]].
  - intros b umbral. unfold en_alerta, float_ge.
    split; apply rbind_Ok_bool_inv.
  - reflexivity.
  - vm_compute. reflexivity.
  - vm_compute. reflexivity.
Qed.

(** C6: a vibration sensor is in alert exactly when the absolute value of
    its average is greater than or equal to [rms_umbral], which is 2.5 by
    default; after 0.5, 1.0, 2.0 the average is 1.1666666666666667 and the
    sensor is not in alert; after 3.0, 3.0 it is. *)
Theorem vibracion_en_alerta :
  (forall (b : Sensor) (rms_umbral : float),
     (en_alerta (SensorVibracion b rms_umbral) = Ok true <->
      exists p, promedio b = Ok p /\ (rms_umbral <=? abs p)%float = true) /\
     (en_alerta (SensorVibracion b rms_umbral) = Ok false <->
      exists p, promedio b = Ok p /\ (rms_umbral <=? abs p)%float = false)) /\
  (forall sid, nuevo_SensorVibracion sid =
               SensorVibracion (mkSensor sid 5 0 []) 2.5) /\
  rbind (leer_obj (nuevo_SensorVibracion "V1") [0.5; 1.0; 2.0]%float)
    (fun o => rbind (promedio (base o)) (fun p =>
              rbind (en_alerta o) (fun a => Ok (p, Fmt.format_2f p, a))))
  = Ok (1.1666666666666667%float, "1.17", false) /\
  rbind (leer_obj (nuevo_SensorVibracion "V1") [3.0; 3.0]%float)
    (fun o => rbind (promedio (base o)) (fun p =>
              rbind (en_alerta o) (fun a => Ok (p, a))))
  = Ok (3%float, true).
Proof.
  split; [|split; [|split]].
  - intros b rms_umbral. unfold en_alerta, float_ge.
    split; apply rbind_Ok_bool_inv.
  - reflexivity.
  - vm_compute. reflexivity.
  - vm_compute. reflexivity.
Qed.

Lemma rbind_Raise_bool_inv {A} (r : result A) (f : A -> bool) (e : exn) :
  rbind r (fun a => Ok (f a)) = Raise e <-> r = Raise e.
Proof.
  destruct r as [a|e']; simpl; split; intros H; congruence.
Qed.

Lemma stdev_varianza (data : list float) :
  statistics.nonfinite data = [] -> (2 <= length data)%nat ->
  statistics.stdev data =
  statistics._float_sqrt_of_frac
    (Qnum (varianza_exacta data)) (Qden (varianza_exacta data)).
Proof.
  intros Hf Hn. unfold statistics.stdev, statistics._ss. rewrite Hf.
  destruct (Z.eqb_spec (Z.of_nat (length data)) 0) as [H|H]; [lia|].
  destruct (Z.ltb_spec (Z.of_nat (length data)) 2) as [H'|H']; [lia|].
  reflexivity.
Qed.

(** C3, as stated: with 2 or more readings a motion sensor would return
    true whenever the sample standard deviation is at least the threshold.
    On the finite readings -1.7e308, 1.7e308 the exact sample variance is
    at least 1, so the deviation is at least the threshold 1.0, and
    [en_alerta] returns neither true nor false: the deviation does not fit
    a float and [stdev] raises. *)
Lemma movimiento_desborda :
  statistics.nonfinite (_buffer (base Ejemplo.desborda)) = [] /\
  Qle_bool 1 (varianza_exacta (_buffer (base Ejemplo.desborda))) = true /\
  statistics.stdev (_buffer (base Ejemplo.desborda)) = Raise OverflowError /\
  en_alerta Ejemplo.desborda = Raise OverflowError /\
  en_alerta Ejemplo.desborda <> Ok true.
Proof.
  assert (H : en_alerta Ejemplo.desborda = Raise OverflowError)
    by (vm_compute; reflexivity).
  split; [vm_compute; reflexivity|]. split; [vm_compute; reflexivity|].
  split; [vm_compute; reflexivity|]. split; [exact H|].
  rewrite H. discriminate.
Qed.

(** C3, amended: a motion sensor with fewer than 2 readings is never in
    alert, whatever the readings and the threshold; with 2 or more,
    [en_alerta] returns true exactly when [statistics.stdev] of the buffer
    returns a deviation greater than or equal to [mov_umbral], false exactly
    when it returns a smaller one, and raises exactly what [stdev] raises
    when it returns none; [mov_umbral] is 1.0 by default. *)
Theorem movimiento_en_alerta :
  (forall (b : Sensor) (mov_umbral : float),
     (length (_buffer b) < 2)%nat ->
     en_alerta (SensorMovimento b mov_umbral) = Ok false) /\
  (forall (b : Sensor) (mov_umbral : float),
     (2 <= length (_buffer b))%nat ->
     (en_alerta (SensorMovimento b mov_umbral) = Ok true <->
      exists d, statistics.stdev (_buffer b) = Ok d /\
                (mov_umbral <=? d)%float = true) /\
     (en_alerta (SensorMovimento b mov_umbral) = Ok false <->
      exists d, statistics.stdev (_buffer b) = Ok d /\
                (mov_umbral <=? d)%float = false) /\
     (forall e : exn,
        en_alerta (SensorMovimento b mov_umbral) = Raise e <->
        statistics.stdev (_buffer b) = Raise e)) /\
  (forall sid, nuevo_SensorMovimento sid =
               SensorMovimento (mkSensor sid 5 0 []) 1).
Proof.
  split; [|split].
  - intros b u H. unfold en_alerta.
    destruct (Z.ltb_spec (Z.of_nat (length (_buffer b))) 2); [reflexivity|lia].
  - intros b u H. unfold en_alerta, float_ge.
    destruct (Z.ltb_spec (Z.of_nat (length (_buffer b))) 2); [lia|].
    split; [apply rbind_Ok_bool_inv|].
    split; [apply rbind_Ok_bool_inv|].
    intros e. apply rbind_Raise_bool_inv.
  - reflexivity.
Qed.

Lemma movimiento_en_alerta_witness :
  en_alerta (SensorMovimento (mkSensor "M1" 5 0 [1e300%float]) 1) = Ok false /\
  (en_alerta (SensorMovimento (mkSensor "M1" 5 0 [0; 2]%float) 1) = Ok true <->
   exists d, statistics.stdev [0; 2]%float = Ok d /\ (1 <=? d)%float = true) /\
  (en_alerta Ejemplo.desborda = Raise OverflowError <->
   statistics.stdev [-1.7e308; 1.7e308]%float = Raise OverflowError).
Proof.
  split; [|split].
  - apply (proj1 movimiento_en_alerta). simpl. lia.
  - apply (proj1 (proj2 movimiento_en_alerta)
             (mkSensor "M1" 5 0 [0; 2]%float) 1%float). simpl. lia.
  - apply (proj1 (proj2 movimiento_en_alerta)
             (mkSensor "M9" 5 0 [-1.7e308; 1.7e308]%float) 1%float).
    simpl. lia.
Defined.

(** The values the documentation of [statistics] gives for its own
    examples, as a check of the model. *)
Example mean_doc_example :
  statistics.mean [1; 2; 3; 4; 4]%float = Ok 2.8%float.
Proof. vm_compute. reflexivity. Qed.

Example stdev_doc_example :
  statistics.stdev [1.5; 2.5; 2.5; 2.75; 3.25; 4.75]%float
  = Ok 1.0810874155219827%float.
Proof. vm_compute. reflexivity. Qed.

Example stdev_too_few : statistics.stdev [7.5]%float = Raise StatisticsError.
Proof. vm_compute. reflexivity. Qed.

Example mean_empty : statistics.mean [] = Raise StatisticsError.
Proof. vm_compute. reflexivity. Qed.

(** On finite data [mean] is the exact sum over the count, rounded once to
    a float, and [stdev] the square root of the exact sum of squared
    deviations over the count less one, rounded once. *)
Lemma mean_finite (data : list float) :
  statistics.nonfinite data = [] -> data <> [] ->
  statistics.mean data =
  Py.float_of_Fraction
    (statistics.Qsum (statistics.exact_values data)
     / (Z.of_nat (length data) # 1))%Q.
Proof.
  intros Hf Hne. unfold statistics.mean, statistics._sum. rewrite Hf.
  destruct data as [|x data]; [congruence|].
  destruct (Z.ltb_spec (Z.of_nat (length (x :: data))) 1) as [H|H];
    [simpl in H; lia | reflexivity].
Qed.

Lemma stdev_finite (data : list float) :
  statistics.nonfinite data = [] -> (2 <= length data)%nat ->
  statistics.stdev data =
  let n := Z.of_nat (length data) in
  let sx := statistics.Qsum (statistics.exact_values data) in
  let sxx := statistics.Qsum
               (map (fun q => q * q)%Q (statistics.exact_values data)) in
  let mss := Qred ((((n # 1) * sxx - sx * sx) / (n # 1)) / (n - 1 # 1))%Q in
  statistics._float_sqrt_of_frac (Qnum mss) (Qden mss).
Proof.
  intros Hf Hn. unfold statistics.stdev, statistics._ss. rewrite Hf.
  destruct (Z.eqb_spec (Z.of_nat (length data)) 0) as [H|H]; [lia|].
  destruct (Z.ltb_spec (Z.of_nat (length data)) 2) as [H'|H']; [lia|].
  reflexivity.
Qed.

(** C4, as stated: after 0.0, 1.0, 0.2, 1.5 the motion sensor with the
    default threshold would be in alert.  It is not. *)
Lemma movimiento_demo_no_alerta :
  alerta_tras (nuevo_SensorMovimento "M1") lecturas_movimiento = Ok false /\
  alerta_tras (nuevo_SensorMovimento "M1") lecturas_movimiento <> Ok true.
Proof.
  assert (H : alerta_tras (nuevo_SensorMovimento "M1") lecturas_movimiento
              = Ok false) by (vm_compute; reflexivity).
  split; [exact H|]. rewrite H. discriminate.
Qed.

(** C4, amended: after 0.0, 1.0, 0.2, 1.5 in a fresh motion sensor with
    threshold 1.0 and no calibration offset the sample standard deviation
    is 0.6994045086119095, below the threshold, and [en_alerta] returns
    false; it returns false after each of the shorter prefixes as well. *)
Theorem movimiento_demo_desviacion :
  rbind (leer_obj (nuevo_SensorMovimento "M1") lecturas_movimiento)
    (fun o => rbind (statistics.stdev (_buffer (base o))) (fun d =>
              rbind (en_alerta o) (fun a => Ok (_buffer (base o), d, a))))
  = Ok ([0.0; 1.0; 0.2; 1.5]%float, 0.6994045086119095%float, false) /\
  (0.6994045086119095 <? 1.0)%float = true /\
  map (fun n => alerta_tras (nuevo_SensorMovimento "M1")
                  (take n lecturas_movimiento)) [0; 1; 2; 3; 4]%nat
  = [Ok false; Ok false; Ok false; Ok false; Ok false].
Proof.
  split; [|split]; vm_compute; reflexivity.
Qed.

(** ** The alert manager *)

Section Gestor.

Lemma add_stdout_nil (w : World) : add_stdout w [] = w.
Proof. destruct w. unfold add_stdout. simpl. rewrite app_nil_r. reflexivity. Qed.

Lemma add_stdout_app (w : World) (l1 l2 : list string) :
  add_stdout (add_stdout w l1) l2 = add_stdout w (l1 ++ l2).
Proof. unfold add_stdout. simpl. rewrite app_assoc. reflexivity. Qed.

Lemma for_enviar (ns : list Notificador) (msg : string) : forall w : World,
  for_ ns (fun n => enviar n msg) w =
  Ok (tt, add_stdout w (map (fun n => linea_enviar n msg) ns)).
Proof.
  induction ns as [|n ns IH]; intros w; simpl.
  - unfold ret. rewrite add_stdout_nil. reflexivity.
  - unfold bind, enviar, print. simpl.
    change (mkWorld (sensores w) (controladores w)
              (stdout w ++ [linea_enviar n msg]))
      with (add_stdout w [linea_enviar n msg]).
    rewrite IH, add_stdout_app. reflexivity.
Qed.

Lemma get_sensor_Some (s : loc) (o : SensorObj) (w : World) :
  sensores w !! s = Some o -> get_sensor s w = Ok (o, w).
Proof. intros H. unfold get_sensor. rewrite H. reflexivity. Qed.

Lemma call_en_alerta_Some (s : loc) (o : SensorObj) (w : World) :
  sensores w !! s = Some o ->
  call_en_alerta s w = rbind (en_alerta o) (fun a => Ok (a, w)).
Proof.
  intros H. unfold call_en_alerta, bind. rewrite (get_sensor_Some s o w H).
  reflexivity.
Qed.

Lemma call_promedio_Some (s : loc) (o : SensorObj) (w : World) :
  sensores w !! s = Some o ->
  call_promedio s w = rbind (promedio (base o)) (fun p => Ok (p, w)).
Proof.
  intros H. unfold call_promedio, bind. rewrite (get_sensor_Some s o w H).
  reflexivity.
Qed.

(** One turn of the loop over the sensors. *)
Lemma paso_sensor (g : GestorAlertas) (s : loc) (o : SensorObj) (w : World) :
  sensores w !! s = Some o ->
  cuerpo_evaluar g s w
  = rbind (envios_sensor o (_notificadores g)) (fun l =>
      Ok (tt, add_stdout w (map linea_de l))).
Proof.
  intros H. unfold cuerpo_evaluar. unfold bind at 1. unfold envios_sensor.
  rewrite (call_en_alerta_Some s o w H).
  destruct (en_alerta o) as [[|]|e]; cbn [rbind]; [| |reflexivity].
  - unfold bind at 1. rewrite (get_sensor_Some s o w H). cbn [rbind].
    unfold bind. rewrite (call_promedio_Some s o w H).
    destruct (promedio (base o)) as [p|e]; cbn [rbind]; [|reflexivity].
    rewrite for_enviar, map_map. reflexivity.
  - unfold ret. rewrite add_stdout_nil. reflexivity.
Qed.

Lemma for_cons {A} (x : A) (l : list A) (body : A -> M unit) (w : World) :
  for_ (x :: l) body w = rbind (body x w) (fun '(_, w') => for_ l body w').
Proof. reflexivity. Qed.

Lemma evaluar_spec (g : GestorAlertas) (ls : list loc) :
  forall (os : list SensorObj) (w : World),
  Forall2 (fun l o => sensores w !! l = Some o) ls os ->
  for_ ls (cuerpo_evaluar g) w =
  rbind (envios os (_notificadores g)) (fun l =>
    Ok (tt, add_stdout w (map linea_de l))).
Proof.
  induction ls as [|s ls IH]; intros os w H;
    inversion H as [|? o ? os' Hs Hrest]; subst.
  - simpl. unfold ret. rewrite add_stdout_nil. reflexivity.
  - rewrite for_cons, (paso_sensor g s o w Hs). cbn [envios].
    destruct (envios_sensor o (_notificadores g)) as [l|e]; cbn [rbind];
      [|reflexivity].
    rewrite (IH os' (add_stdout w (map linea_de l)) Hrest).
    destruct (envios os' (_notificadores g)) as [l'|e]; cbn [rbind];
      [|reflexivity].
    rewrite add_stdout_app, map_app. reflexivity.
Qed.



End Gestor.

Lemma envios_forma (ns : list Notificador) (os : list SensorObj) :
  forall l, envios os ns = Ok l ->
  l = flat_map (fun o => map (fun n => (n, mensaje_de o)) ns)
        (filter (fun o => alertando o = true) os).
Proof.
  induction os as [|o os IH]; simpl; intros l H.
  - injection H as <-. reflexivity.
  - destruct (envios_sensor o ns) as [l1|] eqn:E1; simpl in H; [|discriminate].
    destruct (envios os ns) as [l2|] eqn:E2; simpl in H; [|discriminate].
    injection H as <-. rewrite (IH l2 eq_refl).
    unfold envios_sensor in E1.
    destruct (en_alerta o) as [[|]|e] eqn:Ea; simpl in E1; [| |discriminate].
    + destruct (promedio (base o)) as [p|] eqn:Ep; simpl in E1; [|discriminate].
      injection E1 as <-.
      rewrite filter_cons_True by (unfold alertando; rewrite Ea; reflexivity).
      cbn [flat_map]. f_equal. apply map_ext. intros n.
      unfold mensaje_de. rewrite Ep. reflexivity.
    + injection E1 as <-.
      rewrite filter_cons_False
        by (unfold alertando; rewrite Ea; discriminate).
      reflexivity.
Qed.

Lemma envios_total (ns : list Notificador) (os : list SensorObj) :
  Forall (fun o => exists a p, en_alerta o = Ok a /\ promedio (base o) = Ok p) os ->
  exists l, envios os ns = Ok l.
Proof.
  induction 1 as [|o os (a & p & Ha & Hp) _ (l' & IH)]; simpl.
  - eexists; reflexivity.
  - unfold envios_sensor. rewrite Ha, IH. simpl.
    destruct a; [rewrite Hp|]; simpl; eexists; reflexivity.
Qed.

Lemma envios_raise_sensor (ns : list Notificador) (o : SensorObj) (e : exn)
    (os2 : list SensorObj) :
  forall (os1 : list SensorObj) (l1 : list (Notificador * string)),
  envios os1 ns = Ok l1 ->
  envios_sensor o ns = Raise e ->
  envios (os1 ++ o :: os2) ns = Raise e.
Proof.
  induction os1 as [|o1 os1 IH]; intros l1 H1 He.
  - simpl. rewrite He. reflexivity.
  - simpl in *.
    destruct (envios_sensor o1 ns) as [l|]; cbn [rbind] in *; [|discriminate].
    destruct (envios os1 ns) as [l'|] eqn:E'; cbn [rbind] in H1;
      [|discriminate].
    rewrite (IH l' eq_refl He). reflexivity.
Qed.

Lemma envios_raise (ns : list Notificador) (o : SensorObj) (e : exn)
    (os2 : list SensorObj) :
  forall (os1 : list SensorObj) (l1 : list (Notificador * string)),
  envios os1 ns = Ok l1 ->
  en_alerta o = Raise e ->
  envios (os1 ++ o :: os2) ns = Raise e.
Proof.
  intros os1 l1 H1 He. apply (envios_raise_sensor ns o e os2 os1 l1 H1).
  unfold envios_sensor. rewrite He. reflexivity.
Qed.






(** The sensors of the demonstration script after its readings. *)
Example lecturas_script :
  leer_obj (nuevo_SensorTemperatura "T1") [90; 104; 156]%float
    = Ok Ejemplo.t1 /\
  leer_obj (nuevo_SensorVibracion "V1") [0.5; 1.0; 2.0]%float
    = Ok Ejemplo.v1 /\
  leer_obj (nuevo_SensorMovimento "M1") lecturas_movimiento
    = Ok Ejemplo.m1.
Proof. repeat split; vm_compute; reflexivity. Qed.


(** What is printed with two sensors in alert and two notifiers. *)
Example evaluar_dos_por_dos :
  evaluar_y_notificar Ejemplo.gestor Ejemplo.mundo =
  Ok (tt, add_stdout Ejemplo.mundo
    [ "[EMAIL a example@example.com] ALERTA Sensor T1 en umbral (avg=116.67)";
      "[WEBHOOK http://webhook.com] ALERTA Sensor T1 en umbral (avg=116.67)";
      "[EMAIL a example@example.com] ALERTA Sensor V2 en umbral (avg=3.00)";
      "[WEBHOOK http://webhook.com] ALERTA Sensor V2 en umbral (avg=3.00)" ]).
Proof. vm_compute. reflexivity. Qed.

(** What the demonstration script prints when it evaluates the alerts. *)
Example evaluar_script :
  evaluar_y_notificar Ejemplo.gestor Ejemplo.mundo_script =
  Ok (tt, add_stdout Ejemplo.mundo_script
    [ "[EMAIL a example@example.com] ALERTA Sensor T1 en umbral (avg=116.67)";
      "[WEBHOOK http://webhook.com] ALERTA Sensor T1 en umbral (avg=116.67)" ]).
Proof. vm_compute. reflexivity. Qed.

(** ** The light controller *)

Section Luces.

Lemma get_controlador_Some (c : loc) (x : ControladorLuces) (w : World) :
  controladores w !! c = Some x -> get_controlador c w = Ok (x, w).
Proof. intros H. unfold get_controlador. rewrite H. reflexivity. Qed.

Lemma encender_luces_spec (c : loc) (x : ControladorLuces) (w : World) :
  controladores w !! c = Some x ->
  encender_luces c w =
  Ok (tt, if luces_encendidas x then w
          else mkWorld (sensores w)
                 (<[c := mkControlador (sensor x) true]> (controladores w))
                 (stdout w ++ [msg_encendidas])).
Proof.
  intros H. unfold encender_luces, bind.
  rewrite (get_controlador_Some c x w H). cbn [rbind].
  destruct (luces_encendidas x); reflexivity.
Qed.

Lemma apagar_luces_spec (c : loc) (x : ControladorLuces) (w : World) :
  controladores w !! c = Some x ->
  apagar_luces c w =
  Ok (tt, if luces_encendidas x
          then mkWorld (sensores w)
                 (<[c := mkControlador (sensor x) false]> (controladores w))
                 (stdout w ++ [msg_apagadas])
          else w).
Proof.
  intros H. unfold apagar_luces, bind.
  rewrite (get_controlador_Some c x w H). cbn [rbind].
  destruct (luces_encendidas x); reflexivity.
Qed.

Lemma verificar_movimiento_spec
    (c : loc) (x : ControladorLuces) (o : SensorObj) (w : World) :
  controladores w !! c = Some x ->
  sensores w !! sensor x = Some o ->
  verificar_movimiento c w =
  rbind (en_alerta o) (fun a => Ok (tt, tras_verificar c x a w)).
Proof.
  intros Hc Hs. unfold verificar_movimiento. unfold bind at 1.
  rewrite (get_controlador_Some c x w Hc). cbn [rbind].
  unfold bind at 1. rewrite (call_en_alerta_Some (sensor x) o w Hs).
  destruct (en_alerta o) as [[|]|e]; cbn [rbind]; [| |reflexivity].
  - rewrite (encender_luces_spec c x w Hc). unfold tras_verificar.
    destruct (luces_encendidas x); reflexivity.
  - unfold bind. rewrite (apagar_luces_spec c x w Hc). cbn [rbind].
    unfold tras_verificar, print.
    destruct (luces_encendidas x); simpl; [|reflexivity].
    rewrite <- app_assoc. reflexivity.
Qed.

Lemma tras_verificar_controlador
    (c : loc) (x : ControladorLuces) (a : bool) (w : World) :
  controladores w !! c = Some x ->
  controladores (tras_verificar c x a w) !! c
  = Some (mkControlador (sensor x) a) /\
  sensores (tras_verificar c x a w) = sensores w.
Proof.
  intros H. unfold tras_verificar.
  destruct a, x as [sx [|]]; simpl; split; try reflexivity;
    try exact H; apply lookup_insert_eq.
Qed.

Lemma call_leer_controladores (l : loc) (valor : float) (w w' : World) :
  call_leer l valor w = Ok (tt, w') ->
  controladores w' = controladores w /\ stdout w' = stdout w.
Proof.
  unfold call_leer, bind, get_sensor, lift, put_sensor.
  destruct (sensores w !! l) as [o|]; cbn [rbind]; [|discriminate].
  destruct (leer (base o) valor) as [b|]; cbn [rbind]; [|discriminate].
  intros H. injection H as <-. split; reflexivity.
Qed.

End Luces.

(** C7: when the motion sensor is in alert and the lights are off,
    [verificar_movimiento] prints the one line LUCES ENCENDIDAS; a second
    call right after, or any later call that finds the sensor still in
    alert and the controller untouched, prints nothing and changes nothing.
    Every call that finds the sensor not in alert ends with the line about
    insufficient movement, also when the lights were already off. *)
Theorem verificar_movimiento_efectos
    (c : loc) (x : ControladorLuces) (o : SensorObj) (w : World) :
  controladores w !! c = Some x ->
  sensores w !! sensor x = Some o ->
  (en_alerta o = Ok true -> luces_encendidas x = false ->
   exists w1,
     verificar_movimiento c w = Ok (tt, w1) /\
     stdout w1 = stdout w ++ [msg_encendidas] /\
     verificar_movimiento c w1 = Ok (tt, w1) /\
     (let* _ := verificar_movimiento c in verificar_movimiento c) w
       = Ok (tt, w1) /\
     (forall (w2 : World) (o2 : SensorObj),
        controladores w2 = controladores w1 ->
        sensores w2 !! sensor x = Some o2 ->
        en_alerta o2 = Ok true ->
        verificar_movimiento c w2 = Ok (tt, w2))) /\
  (en_alerta o = Ok true -> luces_encendidas x = true ->
   verificar_movimiento c w = Ok (tt, w)) /\
  (en_alerta o = Ok false ->
   exists w1,
     verificar_movimiento c w = Ok (tt, w1) /\
     stdout w1 =
       stdout w ++ (if luces_encendidas x then [msg_apagadas] else [])
                ++ [msg_sin_movimiento]).
Proof.
  intros Hc Hs. split; [|split].
  - intros Ha Hoff.
    pose proof (verificar_movimiento_spec c x o w Hc Hs) as E.
    rewrite Ha in E. cbn [rbind] in E.
    destruct (tras_verificar_controlador c x true w Hc) as [Hc1 Hs1].
    set (w1 := tras_verificar c x true w) in *.
    assert (Hout : stdout w1 = stdout w ++ [msg_encendidas]).
    { unfold w1, tras_verificar. rewrite Hoff. reflexivity. }
    assert (Hagain : forall (w2 : World) (o2 : SensorObj),
              controladores w2 = controladores w1 ->
              sensores w2 !! sensor x = Some o2 ->
              en_alerta o2 = Ok true ->
              verificar_movimiento c w2 = Ok (tt, w2)).
    { intros w2 o2 Hc2 Hs2 Ha2.
      assert (Hc2' : controladores w2 !! c = Some (mkControlador (sensor x) true))
        by (rewrite Hc2; exact Hc1).
      rewrite (verificar_movimiento_spec c _ o2 w2 Hc2' Hs2), Ha2.
      reflexivity. }
    assert (E1 : verificar_movimiento c w1 = Ok (tt, w1)).
    { apply (Hagain w1 o); [reflexivity | rewrite Hs1; exact Hs | exact Ha]. }
    exists w1. split; [exact E|]. split; [exact Hout|]. split; [exact E1|].
    split; [|exact Hagain].
    unfold bind. rewrite E. cbn [rbind]. exact E1.
  - intros Ha Hon.
    rewrite (verificar_movimiento_spec c x o w Hc Hs), Ha. cbn [rbind].
    unfold tras_verificar. rewrite Hon. reflexivity.
  - intros Ha.
    rewrite (verificar_movimiento_spec c x o w Hc Hs), Ha. cbn [rbind].
    eexists. split; [reflexivity|].
    unfold tras_verificar. destruct (luces_encendidas x); reflexivity.
Qed.

Lemma m2_en_alerta : en_alerta EjemploLuces.m2 = Ok true.
Proof. vm_compute. reflexivity. Defined.

Lemma verificar_movimiento_efectos_witness :
  controladores EjemploLuces.mundo !! 0%nat
    = Some (init_ControladorLuces 0%nat) /\
  sensores EjemploLuces.mundo !! 0%nat = Some EjemploLuces.m2 /\
  en_alerta EjemploLuces.m2 = Ok true /\
  exists w1,
    verificar_movimiento 0%nat EjemploLuces.mundo = Ok (tt, w1) /\
    stdout w1 = [msg_encendidas] /\
    verificar_movimiento 0%nat w1 = Ok (tt, w1).
Proof.
  assert (Hc : controladores EjemploLuces.mundo !! 0%nat
               = Some (init_ControladorLuces 0%nat)) by reflexivity.
  assert (Hs : sensores EjemploLuces.mundo
                 !! sensor (init_ControladorLuces 0%nat)
               = Some EjemploLuces.m2) by reflexivity.
  split; [exact Hc|]. split; [exact Hs|].
  split; [exact m2_en_alerta|].
  destruct (proj1 (verificar_movimiento_efectos 0%nat
                     (init_ControladorLuces 0%nat) EjemploLuces.m2
                     EjemploLuces.mundo Hc Hs)
              m2_en_alerta eq_refl)
    as (w1 & E & Hout & E1 & _).
  exists w1. split; [exact E|]. split; [exact Hout|]. exact E1.
Defined.

(** C8: a new controller has its lights off; after each
    [verificar_movimiento] the flag of the controller is the value that
    [en_alerta] of its sensor returned in that call, and the sensor is as
    before; a later [leer] on the sensor, which may change what [en_alerta]
    returns, leaves every controller as it is. *)
Theorem luces_segun_ultima_verificacion :
  (forall s : loc, luces_encendidas (init_ControladorLuces s) = false) /\
  (forall (c : loc) (x : ControladorLuces) (o : SensorObj) (a : bool)
          (w : World),
     controladores w !! c = Some x ->
     sensores w !! sensor x = Some o ->
     en_alerta o = Ok a ->
     exists w' x',
       verificar_movimiento c w = Ok (tt, w') /\
       controladores w' !! c = Some x' /\
       luces_encendidas x' = a /\
       sensor x' = sensor x /\
       sensores w' = sensores w) /\
  (forall (l : loc) (valor : float) (w w' : World),
     call_leer l valor w = Ok (tt, w') ->
     controladores w' = controladores w).
Proof.
  split; [|split].
  - reflexivity.
  - intros c x o a w Hc Hs Ha.
    destruct (tras_verificar_controlador c x a w Hc) as [Hc' Hs'].
    exists (tras_verificar c x a w), (mkControlador (sensor x) a).
    rewrite (verificar_movimiento_spec c x o w Hc Hs), Ha.
    repeat split; try reflexivity; assumption.
  - intros l valor w w' H.
    exact (proj1 (call_leer_controladores l valor w w' H)).
Qed.

Lemma luces_segun_ultima_verificacion_witness :
  exists w' x',
    verificar_movimiento 0%nat EjemploLuces.mundo = Ok (tt, w') /\
    controladores w' !! 0%nat = Some x' /\
    luces_encendidas x' = true /\
    sensor x' = 0%nat /\
    sensores w' = sensores EjemploLuces.mundo.
Proof.
  exact (proj1 (proj2 luces_segun_ultima_verificacion) 0%nat
           (init_ControladorLuces 0%nat) EjemploLuces.m2 true
           EjemploLuces.mundo eq_refl eq_refl m2_en_alerta).
Defined.

(** Two calls in a row on the example: one line, and the second call
    returns the state it was given. *)
Example verificar_dos_veces :
  verificar_movimiento 0%nat EjemploLuces.mundo
    = Ok (tt, EjemploLuces.mundo_encendido) /\
  verificar_movimiento 0%nat EjemploLuces.mundo_encendido
    = Ok (tt, EjemploLuces.mundo_encendido).
Proof. split; vm_compute; reflexivity. Qed.

(** The flag is not live: the lights go on with the sensor in alert, five
    equal readings then take the sensor out of alert, and the flag stays on
    until the next [verificar_movimiento]. *)
Example luces_no_reactivas :
  (let* _ := verificar_movimiento 0%nat in
   let* _ := for_ [1; 1; 1; 1; 1]%float (call_leer 0%nat) in
   let* x := get_controlador 0%nat in
   let* a := call_en_alerta 0%nat in
   let* _ := verificar_movimiento 0%nat in
   let* x' := get_controlador 0%nat in
   ret (luces_encendidas x, a, luces_encendidas x')) EjemploLuces.mundo
  = Ok ((true, false, false),
        mkWorld
          {[ 0%nat := SensorMovimento
                        (mkSensor "M2" 5 0 [1; 1; 1; 1; 1]%float) 1 ]}
          {[ 0%nat := mkControlador 0%nat false ]}
          [msg_encendidas; msg_apagadas; msg_sin_movimiento]).
Proof. vm_compute. reflexivity. Qed.

(** What the demonstration script prints at its end: the motion sensor is
    not in alert. *)
Example verificar_script :
  verificar_movimiento 0%nat Ejemplo.mundo_script =
  Ok (tt, add_stdout Ejemplo.mundo_script [msg_sin_movimiento]).
Proof. vm_compute. reflexivity. Qed.

(** * Further properties of the code *)

(** ** Readings *)

(** X1: [leer] never raises, whatever the window size and the buffer; it
    changes the buffer only; the buffer grows by one while it holds fewer
    than [ventana] readings and keeps its length otherwise; unless the
    buffer ends empty, its last item is the new calibrated reading. *)
Theorem leer_siempre (s : Sensor) (valor : float) :
  exists s', leer s valor = Ok s' /\
    id s' = id s /\ ventana s' = ventana s /\
    _calibracion s' = _calibracion s /\
    length (_buffer s') =
      (if ventana s <=? Z.of_nat (length (_buffer s))
       then length (_buffer s) else S (length (_buffer s))) /\
    (_buffer s' = [] \/ last (_buffer s') = Some (calibrado s valor)).
Proof.
  rewrite leer_ok. eexists. split; [reflexivity|]. simpl.
  split; [reflexivity|]. split; [reflexivity|]. split; [reflexivity|].
  rewrite length_app. simpl.
  destruct (Z.ltb_spec (ventana s) (Z.of_nat (length (_buffer s) + 1)));
    destruct (Z.leb_spec (ventana s) (Z.of_nat (length (_buffer s))));
    try lia.
  - destruct (_buffer s) as [|x b]; simpl.
    + split; [reflexivity | left; reflexivity].
    + split; [rewrite length_app; simpl; lia | right; apply last_snoc].
  - split; [rewrite length_app; simpl; lia | right; apply last_snoc].
Qed.

Lemma leer_longitud (s : Sensor) (valor : float) :
  exists s', leer s valor = Ok s' /\ ventana s' = ventana s /\
    length (_buffer s') =
      (if ventana s <=? Z.of_nat (length (_buffer s))
       then length (_buffer s) else S (length (_buffer s))).
Proof.
  rewrite leer_ok. eexists. split; [reflexivity|]. simpl.
  split; [reflexivity|]. rewrite length_app. simpl.
  destruct (Z.ltb_spec (ventana s) (Z.of_nat (length (_buffer s) + 1)));
    destruct (Z.leb_spec (ventana s) (Z.of_nat (length (_buffer s))));
    try lia.
  - destruct (_buffer s) as [|x b]; simpl; [reflexivity|].
    rewrite length_app. simpl. lia.
  - rewrite length_app. simpl. lia.
Qed.

Lemma leer_todos_largo (vals : list float) : forall s : Sensor,
  ventana s <= Z.of_nat (length (_buffer s)) ->
  exists s', leer_todos s vals = Ok s' /\
    ventana s' = ventana s /\
    length (_buffer s') = length (_buffer s).
Proof.
  induction vals as [|v vals IH]; intros s H; simpl.
  - exists s. repeat split.
  - destruct (leer_longitud s v) as (s1 & E1 & Hv & Hl).
    rewrite E1. simpl.
    destruct (Z.leb_spec (ventana s) (Z.of_nat (length (_buffer s)))); [|lia].
    destruct (IH s1) as (s' & E' & Hv' & Hl'); [rewrite Hv, Hl; exact H|].
    exists s'. rewrite E'. repeat split; congruence.
Qed.

(** X2: once the buffer holds [ventana] readings or more, no [leer] changes
    its length: a full window stays full, and a buffer that was built
    longer than the window is never cut back to it. *)
Theorem buffer_lleno_persiste (s : Sensor) (vals : list float) :
  ventana s <= Z.of_nat (length (_buffer s)) ->
  exists s', leer_todos s vals = Ok s' /\
    length (_buffer s') = length (_buffer s).
Proof.
  intros H. destruct (leer_todos_largo vals s H) as (s' & E & _ & Hl).
  exists s'. split; assumption.
Qed.

Lemma buffer_lleno_persiste_witness :
  let s := mkSensor "T9" 2 0 [1; 2; 3; 4]%float in
  ventana s <= Z.of_nat (length (_buffer s)) /\
  exists s', leer_todos s [5; 6; 7]%float = Ok s' /\
    length (_buffer s') = length (_buffer s).
Proof.
  intros s.
  assert (H : ventana s <= Z.of_nat (length (_buffer s))) by (simpl; lia).
  split; [exact H|]. exact (buffer_lleno_persiste s [5; 6; 7]%float H).
Defined.

(** X3: from an empty buffer and a window size that is not negative, the
    buffer after any readings is the last [ventana] calibrated readings in
    the order they came; while no more than [ventana] came, it is all of
    them. *)
Theorem buffer_desde_vacio (s : Sensor) (vals : list float) :
  _buffer s = [] ->
  0 <= ventana s ->
  exists s', leer_todos s vals = Ok s' /\
    _buffer s' = ultimos (Z.to_nat (ventana s)) (map (calibrado s) vals) /\
    (Z.of_nat (length vals) <= ventana s ->
     _buffer s' = map (calibrado s) vals).
Proof.
  intros Hb Hw.
  destruct (leer_todos_ventana vals s) as (s' & E & _ & _ & _ & _ & Hbuf).
  { rewrite Hb. simpl. lia. }
  rewrite Hb in Hbuf. simpl in Hbuf.
  exists s'. split; [exact E|]. split; [exact Hbuf|].
  intros Hn. rewrite Hbuf. apply ultimos_all. rewrite length_map. lia.
Qed.

Lemma buffer_desde_vacio_witness :
  let s := mkSensor "T1" 3 0.5 [] in
  _buffer s = [] /\ 0 <= ventana s /\
  exists s', leer_todos s [1; 2]%float = Ok s' /\
    _buffer s' = ultimos (Z.to_nat (ventana s)) (map (calibrado s) [1; 2]%float) /\
    (Z.of_nat (length [1; 2]%float) <= ventana s ->
     _buffer s' = map (calibrado s) [1; 2]%float).
Proof.
  intros s.
  assert (H : 0 <= ventana s) by (simpl; lia).
  split; [reflexivity|]. split; [exact H|].
  exact (buffer_desde_vacio s [1; 2]%float eq_refl H).
Defined.

(** X4: with no reading in the buffer the average is 0.0, so a temperature
    sensor is in alert exactly when its threshold is at most 0.0, a
    vibration sensor likewise, and a motion sensor is not in alert. *)
Theorem alerta_sin_lecturas (b : Sensor) (u : float) :
  _buffer b = [] ->
  en_alerta (SensorTemperatura b u) = Ok (u <=? 0)%float /\
  en_alerta (SensorVibracion b u) = Ok (u <=? 0)%float /\
  en_alerta (SensorMovimento b u) = Ok false.
Proof.
  intros H. unfold en_alerta, promedio. rewrite H. simpl.
  repeat split.
Qed.

Lemma alerta_sin_lecturas_witness :
  en_alerta (SensorTemperatura (nuevo_Sensor "T1") (-5)) = Ok (-5 <=? 0)%float /\
  en_alerta (SensorVibracion (nuevo_Sensor "T1") (-5)) = Ok (-5 <=? 0)%float /\
  en_alerta (SensorMovimento (nuevo_Sensor "T1") (-5)) = Ok false.
Proof. exact (alerta_sin_lecturas (nuevo_Sensor "T1") (-5)%float eq_refl). Defined.

(** X5: a motion sensor whose window size is 1 or less, with its buffer
    within the window, is never in alert, whatever readings come: the buffer
    never holds the two readings the deviation needs. *)
Theorem movimiento_ventana_corta
    (b : Sensor) (mov_umbral : float) (vals : list float) :
  ventana b <= 1 ->
  Z.of_nat (length (_buffer b)) <= ventana b ->
  exists b', leer_todos b vals = Ok b' /\
    en_alerta (SensorMovimento b' mov_umbral) = Ok false.
Proof.
  intros Hw Hl.
  destruct (leer_todos_ventana vals b Hl) as (b' & E & _ & _ & _ & Hl' & _).
  exists b'. split; [exact E|].
  unfold en_alerta.
  destruct (Z.ltb_spec (Z.of_nat (length (_buffer b'))) 2); [reflexivity|lia].
Qed.

Lemma movimiento_ventana_corta_witness :
  let b := mkSensor "M1" 1 0 [] in
  ventana b <= 1 /\ Z.of_nat (length (_buffer b)) <= ventana b /\
  exists b', leer_todos b [0; 1e9; -1e9]%float = Ok b' /\
    en_alerta (SensorMovimento b' 1) = Ok false.
Proof.
  intros b.
  assert (H1 : ventana b <= 1) by (simpl; lia).
  assert (H2 : Z.of_nat (length (_buffer b)) <= ventana b) by (simpl; lia).
  split; [exact H1|]. split; [exact H2|].
  exact (movimiento_ventana_corta b 1%float [0; 1e9; -1e9]%float H1 H2).
Defined.

(** X6: with a calibration offset of 0.0, the default, the stored reading
    is the raw reading itself, NaN and the infinities included; the one
    exception is the negative zero, which is stored as 0.0. *)
Theorem calibracion_cero (s : Sensor) (valor : float) :
  _calibracion s = zero ->
  calibrado s valor =
    match Prim2SF valor with
    | S754_zero true => zero
    | _ => valor
    end.
Proof.
  intros H. unfold calibrado. rewrite H.
  assert (E : Prim2SF (valor + zero) = SFadd prec emax (Prim2SF valor) (S754_zero false)).
  { rewrite add_spec. reflexivity. }
  destruct (Prim2SF valor) as [[|]| [|] | |sg m e] eqn:Ev;
    apply Prim2SF_inj; rewrite E; try rewrite Ev; reflexivity.
Qed.

Lemma calibracion_cero_witness :
  calibrado (nuevo_Sensor "T1") 21.5 = 21.5%float /\
  calibrado (nuevo_Sensor "T1") neg_zero = zero.
Proof.
  split.
  - exact (calibracion_cero (nuevo_Sensor "T1") 21.5%float eq_refl).
  - exact (calibracion_cero (nuevo_Sensor "T1") neg_zero eq_refl).
Defined.

(** ** Exceptions *)

Section Excepciones.

Lemma int_truediv_outcome (a : Z) (b : positive) :
  (exists f, Py.int_truediv a b = Ok f) \/
  Py.int_truediv a b = Raise OverflowError.
Proof.
  unfold Py.int_truediv. destruct a as [|p|p].
  - left. eexists. reflexivity.
  - destruct (SFdiv _ _ _ _); try (left; eexists; reflexivity).
    right. reflexivity.
  - destruct (SFdiv _ _ _ _); try (left; eexists; reflexivity).
    right. reflexivity.
Qed.

Lemma mean_outcome (data : list float) :
  data <> [] ->
  (exists f, statistics.mean data = Ok f) \/
  statistics.mean data = Raise OverflowError.
Proof.
  intros Hne. unfold statistics.mean, statistics._sum.
  assert (Hn : (Z.of_nat (length data) <? 1) = false).
  { destruct data; [congruence|]. apply Z.ltb_ge. simpl. lia. }
  destruct (statistics.nonfinite data); rewrite Hn.
  - apply int_truediv_outcome.
  - left. eexists. reflexivity.
Qed.

Lemma stdev_outcome (data : list float) :
  (2 <= length data)%nat ->
  (exists f, statistics.stdev data = Ok f) \/
  statistics.stdev data = Raise OverflowError \/
  (statistics.stdev data = Raise AttributeError /\
   statistics.nonfinite data <> []).
Proof.
  intros H. unfold statistics.stdev, statistics._ss.
  assert (Hn : (Z.of_nat (length data) <? 2) = false) by (apply Z.ltb_ge; lia).
  assert (H0 : (Z.of_nat (length data) =? 0) = false) by (apply Z.eqb_neq; lia).
  destruct (statistics.nonfinite data) eqn:Hf.
  - rewrite H0, Hn. unfold statistics._float_sqrt_of_frac.
    destruct (0 <=? _);
      match goal with
      | |- context [Py.int_truediv ?a ?b] =>
          destruct (int_truediv_outcome a b) as [[f ->]| ->]
      end;
      [left; eexists; reflexivity | right; left; reflexivity
      |left; eexists; reflexivity | right; left; reflexivity].
  - rewrite Hn. right. right. split; [reflexivity | discriminate].
Qed.

End Excepciones.

(** X7: the tests before [mean] and [stdev] keep [StatisticsError] out:
    [promedio] returns a float or raises [OverflowError]; [en_alerta] of a
    temperature and of a vibration sensor returns a boolean or raises
    [OverflowError]; [en_alerta] of a motion sensor returns a boolean or
    raises [OverflowError] or [AttributeError], the last only with two
    readings or more of which one is an infinity or a NaN.  Nothing else
    is ever raised. *)
Theorem excepciones_posibles :
  (forall s : Sensor,
     (exists p, promedio s = Ok p) \/ promedio s = Raise OverflowError) /\
  (forall (b : Sensor) (u : float),
     (exists a, en_alerta (SensorTemperatura b u) = Ok a) \/
     en_alerta (SensorTemperatura b u) = Raise OverflowError) /\
  (forall (b : Sensor) (u : float),
     (exists a, en_alerta (SensorVibracion b u) = Ok a) \/
     en_alerta (SensorVibracion b u) = Raise OverflowError) /\
  (forall (b : Sensor) (u : float),
     (exists a, en_alerta (SensorMovimento b u) = Ok a) \/
     en_alerta (SensorMovimento b u) = Raise OverflowError \/
     (en_alerta (SensorMovimento b u) = Raise AttributeError /\
      (2 <= length (_buffer b))%nat /\
      statistics.nonfinite (_buffer b) <> [])).
Proof.
  assert (Hp : forall s : Sensor,
    (exists p, promedio s = Ok p) \/ promedio s = Raise OverflowError).
  { intros s. unfold promedio. destruct (_buffer s) as [|x b] eqn:E.
    - left. eexists. reflexivity.
    - apply mean_outcome. discriminate. }
  split; [exact Hp|]. split; [|split]; intros b u; unfold en_alerta.
  - destruct (Hp b) as [[p ->]| ->]; [left; eexists|right]; reflexivity.
  - destruct (Hp b) as [[p ->]| ->]; [left; eexists|right]; reflexivity.
  - destruct (Z.ltb_spec (Z.of_nat (length (_buffer b))) 2) as [H|H].
    + left. eexists. reflexivity.
    + destruct (stdev_outcome (_buffer b)) as [[d ->]|[-> | [-> Hnf]]]; [lia| | |].
      * left. eexists. reflexivity.
      * right. left. reflexivity.
      * right. right. split; [reflexivity|]. split; [lia | exact Hnf].
Qed.

(** X8: with an infinity or a NaN among the readings [promedio] still
    returns a float, the float sum of those readings over the count, and so
    do the temperature and the vibration alerts; [en_alerta] of a motion
    sensor with two readings or more raises [AttributeError] (the [stdev] of
    CPython 3.11). *)
Theorem lecturas_no_finitas (b : Sensor) (u : float) :
  statistics.nonfinite (_buffer b) <> [] ->
  promedio b =
    Ok (fold_left PrimFloat.add (statistics.nonfinite (_buffer b)) zero
        / Py.float_of_int (Z.of_nat (length (_buffer b))))%float /\
  (exists a, en_alerta (SensorTemperatura b u) = Ok a) /\
  (exists a, en_alerta (SensorVibracion b u) = Ok a) /\
  ((2 <= length (_buffer b))%nat ->
   en_alerta (SensorMovimento b u) = Raise AttributeError).
Proof.
  intros Hnf.
  assert (Hp : promedio b =
    Ok (fold_left PrimFloat.add (statistics.nonfinite (_buffer b)) zero
        / Py.float_of_int (Z.of_nat (length (_buffer b))))%float).
  { unfold promedio. destruct (_buffer b) as [|x l] eqn:E.
    - simpl in Hnf. congruence.
    - unfold statistics.mean, statistics._sum.
      destruct (statistics.nonfinite (x :: l)) as [|y nf]; [congruence|].
      destruct (Z.ltb_spec (Z.of_nat (length (x :: l))) 1) as [H|H];
        [simpl in H; lia | reflexivity]. }
  split; [exact Hp|]. unfold en_alerta. rewrite Hp. simpl.
  split; [eexists; reflexivity|]. split; [eexists; reflexivity|].
  intros H2.
  destruct (Z.ltb_spec (Z.of_nat (length (_buffer b))) 2) as [H|H]; [lia|].
  unfold statistics.stdev, statistics._ss.
  destruct (statistics.nonfinite (_buffer b)) as [|y nf]; [congruence|].
  destruct (Z.ltb_spec (Z.of_nat (length (_buffer b))) 2) as [H'|H']; [lia|].
  reflexivity.
Qed.

Lemma lecturas_no_finitas_witness :
  let b := mkSensor "M1" 5 0 [1; infinity; 2]%float in
  statistics.nonfinite (_buffer b) <> [] /\
  promedio b = Ok infinity /\
  en_alerta (SensorMovimento b 1) = Raise AttributeError.
Proof.
  intros b.
  assert (H : statistics.nonfinite (_buffer b) <> []) by (vm_compute; discriminate).
  split; [exact H|].
  destruct (lecturas_no_finitas b 1%float H) as (Hp & _ & _ & Hm).
  split.
  - rewrite Hp. vm_compute. reflexivity.
  - apply Hm. simpl. lia.
Defined.

(** ** The alert manager, further *)

Section GestorMas.

Lemma cuerpo_evaluar_inv (g : GestorAlertas) (s : loc) (w w' : World) :
  cuerpo_evaluar g s w = Ok (tt, w') ->
  exists calls, w' = add_stdout w (map linea_de calls).
Proof.
  destruct (sensores w !! s) as [o|] eqn:E.
  - rewrite (paso_sensor g s o w E).
    destruct (envios_sensor o (_notificadores g)) as [l|e]; cbn [rbind];
      [|discriminate].
    intros H. injection H as <-. exists l. reflexivity.
  - unfold cuerpo_evaluar, bind, call_en_alerta, bind, get_sensor.
    rewrite E. cbn [rbind]. discriminate.
Qed.

Lemma for_evaluar_inv (g : GestorAlertas) (ls : list loc) :
  forall w w' : World,
  for_ ls (cuerpo_evaluar g) w = Ok (tt, w') ->
  exists calls, w' = add_stdout w (map linea_de calls).
Proof.
  induction ls as [|s ls IH]; intros w w' H.
  - simpl in H. unfold ret in H. injection H as <-.
    exists []. simpl. rewrite add_stdout_nil. reflexivity.
  - rewrite for_cons in H.
    destruct (cuerpo_evaluar g s w) as [[[] w1]|e] eqn:E1; cbn [rbind] in H;
      [|discriminate].
    destruct (cuerpo_evaluar_inv g s w w1 E1) as (c1 & ->).
    destruct (IH _ _ H) as (c2 & ->).
    exists (c1 ++ c2). rewrite add_stdout_app, map_app. reflexivity.
Qed.

Lemma append_inj_l (p a b : string) : p +:+ a = p +:+ b -> a = b.
Proof.
  induction p as [|c p IH]; simpl; intros H; [exact H|].
  injection H as H. apply IH. exact H.
Qed.

End GestorMas.

(** X10: an evaluation that returns has only printed: the sensors and the
    controllers are as before, and the output is the old output followed by
    lines of the notifiers. *)
Theorem evaluar_solo_imprime (g : GestorAlertas) (w w' : World) :
  evaluar_y_notificar g w = Ok (tt, w') ->
  sensores w' = sensores w /\
  controladores w' = controladores w /\
  exists calls, stdout w' = stdout w ++ map linea_de calls.
Proof.
  intros H. destruct (for_evaluar_inv g (_sensores g) w w' H) as (calls & ->).
  split; [reflexivity|]. split; [reflexivity|]. exists calls. reflexivity.
Qed.

Lemma evaluar_solo_imprime_witness :
  exists w',
    evaluar_y_notificar Ejemplo.gestor Ejemplo.mundo_script = Ok (tt, w') /\
    sensores w' = sensores Ejemplo.mundo_script /\
    controladores w' = controladores Ejemplo.mundo_script /\
    exists calls, stdout w' = stdout Ejemplo.mundo_script ++ map linea_de calls.
Proof.
  eexists. split; [vm_compute; reflexivity|].
  apply (evaluar_solo_imprime Ejemplo.gestor Ejemplo.mundo_script).
  vm_compute. reflexivity.
Defined.

(** X11: an evaluation prints nothing and returns the state it was given
    when no registered sensor is in alert (in particular when no sensor is
    registered), and also when no notifier is registered and the alerts and
    averages are computed without an exception. *)
Theorem evaluar_sin_envios
    (g : GestorAlertas) (w : World) (os : list SensorObj) :
  Forall2 (fun l o => sensores w !! l = Some o) (_sensores g) os ->
  (Forall (fun o => en_alerta o = Ok false) os ->
   evaluar_y_notificar g w = Ok (tt, w)) /\
  (_notificadores g = [] ->
   Forall (fun o => exists a p, en_alerta o = Ok a /\ promedio (base o) = Ok p) os ->
   evaluar_y_notificar g w = Ok (tt, w)).
Proof.
  intros H. unfold evaluar_y_notificar.
  rewrite (evaluar_spec g (_sensores g) os w H).
  split.
  - intros Hno.
    assert (E : envios os (_notificadores g) = Ok []).
    { clear H. induction Hno as [|o os Ho _ IH]; [reflexivity|].
      simpl. unfold envios_sensor. rewrite Ho, IH. reflexivity. }
    rewrite E. simpl. rewrite add_stdout_nil. reflexivity.
  - intros Hns Hok. rewrite Hns.
    destruct (envios_total [] os Hok) as (l & E).
    rewrite E. cbn [rbind].
    rewrite (envios_forma [] os l E).
    assert (E0 : forall xs : list SensorObj,
      flat_map (fun o => map (fun n : Notificador => (n, mensaje_de o)) []) xs
      = []) by (induction xs; simpl; auto).
    rewrite E0. simpl. rewrite add_stdout_nil. reflexivity.
Qed.

Lemma evaluar_sin_envios_witness :
  let g := mkGestor [1; 2]%nat [Ejemplo.email] in
  Forall2 (fun l o => sensores Ejemplo.mundo_script !! l = Some o)
    (_sensores g) [Ejemplo.v1; Ejemplo.m1] /\
  Forall (fun o => en_alerta o = Ok false) [Ejemplo.v1; Ejemplo.m1] /\
  evaluar_y_notificar g Ejemplo.mundo_script = Ok (tt, Ejemplo.mundo_script).
Proof.
  intros g.
  assert (H : Forall2 (fun l o => sensores Ejemplo.mundo_script !! l = Some o)
                (_sensores g) [Ejemplo.v1; Ejemplo.m1])
    by (repeat constructor).
  assert (Hno : Forall (fun o => en_alerta o = Ok false)
                  [Ejemplo.v1; Ejemplo.m1])
    by (repeat constructor; vm_compute; reflexivity).
  split; [exact H|]. split; [exact Hno|].
  exact (proj1 (evaluar_sin_envios g Ejemplo.mundo_script
                  [Ejemplo.v1; Ejemplo.m1] H) Hno).
Defined.

(** X12: nothing is remembered between evaluations: a second evaluation
    right after the first sends the same messages to the same notifiers
    again. *)
Theorem evaluar_dos_veces
    (g : GestorAlertas) (w : World) (os : list SensorObj)
    (l : list (Notificador * string)) :
  Forall2 (fun l o => sensores w !! l = Some o) (_sensores g) os ->
  envios os (_notificadores g) = Ok l ->
  (let* _ := evaluar_y_notificar g in evaluar_y_notificar g) w
  = Ok (tt, add_stdout w (map linea_de l ++ map linea_de l)).
Proof.
  intros H E. unfold bind, evaluar_y_notificar.
  rewrite (evaluar_spec g (_sensores g) os w H), E. cbn [rbind].
  rewrite (evaluar_spec g (_sensores g) os (add_stdout w (map linea_de l)) H), E.
  cbn [rbind]. rewrite add_stdout_app. reflexivity.
Qed.

Lemma evaluar_dos_veces_witness :
  let os := [Ejemplo.t1; Ejemplo.v1; Ejemplo.m1] in
  let l := [(Ejemplo.email, mensaje_de Ejemplo.t1);
            (Ejemplo.webhook, mensaje_de Ejemplo.t1)] in
  Forall2 (fun l o => sensores Ejemplo.mundo_script !! l = Some o)
    (_sensores Ejemplo.gestor) os /\
  envios os (_notificadores Ejemplo.gestor) = Ok l /\
  (let* _ := evaluar_y_notificar Ejemplo.gestor in
   evaluar_y_notificar Ejemplo.gestor) Ejemplo.mundo_script
  = Ok (tt, add_stdout Ejemplo.mundo_script
              (map linea_de l ++ map linea_de l)).
Proof.
  intros os l.
  assert (H : Forall2 (fun l o => sensores Ejemplo.mundo_script !! l = Some o)
                (_sensores Ejemplo.gestor) os) by (repeat constructor).
  assert (E : envios os (_notificadores Ejemplo.gestor) = Ok l)
    by (vm_compute; reflexivity).
  split; [exact H|]. split; [exact E|].
  exact (evaluar_dos_veces Ejemplo.gestor Ejemplo.mundo_script os l H E).
Defined.

(** X13: the line a notifier prints determines the message it was given,
    and the line of an e-mail notifier is never the line of a webhook
    notifier. *)
Theorem linea_enviar_inyectiva :
  (forall (n : Notificador) (m1 m2 : string),
     linea_enviar n m1 = linea_enviar n m2 -> m1 = m2) /\
  (forall (d u m1 m2 : string),
     linea_enviar (NotificadorEmail d) m1
     <> linea_enviar (NotificadorWebhook u) m2).
Proof.
  split.
  - intros [d|u] m1 m2 H; unfold linea_enviar in H;
      repeat (apply append_inj_l in H); exact H.
  - intros d u m1 m2 H. simpl in H. discriminate.
Qed.

(** ** The light controller, further *)

(** X14: [encender_luces] leaves the lights on and prints its line only
    when they were off, so that a second call changes nothing;
    [apagar_luces] after it puts them off with one line, and a second
    [apagar_luces] changes nothing either.  The bound sensor is kept. *)
Theorem encender_apagar (c : loc) (x : ControladorLuces) (w : World) :
  controladores w !! c = Some x ->
  exists w1 w2,
    encender_luces c w = Ok (tt, w1) /\
    controladores w1 !! c = Some (mkControlador (sensor x) true) /\
    stdout w1 =
      stdout w ++ (if luces_encendidas x then [] else [msg_encendidas]) /\
    encender_luces c w1 = Ok (tt, w1) /\
    apagar_luces c w1 = Ok (tt, w2) /\
    controladores w2 !! c = Some (mkControlador (sensor x) false) /\
    stdout w2 = stdout w1 ++ [msg_apagadas] /\
    apagar_luces c w2 = Ok (tt, w2).
Proof.
  intros H.
  set (w1 := if luces_encendidas x then w
             else mkWorld (sensores w)
                    (<[c := mkControlador (sensor x) true]> (controladores w))
                    (stdout w ++ [msg_encendidas])).
  assert (H1 : controladores w1 !! c = Some (mkControlador (sensor x) true)).
  { unfold w1. destruct x as [sx [|]]; simpl; [exact H|].
    apply lookup_insert_eq. }
  set (w2 := mkWorld (sensores w1)
               (<[c := mkControlador (sensor x) false]> (controladores w1))
               (stdout w1 ++ [msg_apagadas])).
  assert (H2 : controladores w2 !! c = Some (mkControlador (sensor x) false))
    by apply lookup_insert_eq.
  exists w1, w2.
  split; [exact (encender_luces_spec c x w H)|].
  split; [exact H1|]. split.
  { unfold w1. destruct (luces_encendidas x); simpl;
      [rewrite app_nil_r|]; reflexivity. }
  split; [exact (encender_luces_spec c _ w1 H1)|].
  split; [exact (apagar_luces_spec c _ w1 H1)|].
  split; [exact H2|]. split; [reflexivity|].
  exact (apagar_luces_spec c _ w2 H2).
Qed.

Lemma encender_apagar_witness :
  controladores EjemploLuces.mundo !! 0%nat
    = Some (init_ControladorLuces 0%nat) /\
  exists w1 w2,
    encender_luces 0%nat EjemploLuces.mundo = Ok (tt, w1) /\
    stdout w1 = [msg_encendidas] /\
    encender_luces 0%nat w1 = Ok (tt, w1) /\
    apagar_luces 0%nat w1 = Ok (tt, w2) /\
    stdout w2 = [msg_encendidas; msg_apagadas].
Proof.
  assert (H : controladores EjemploLuces.mundo !! 0%nat
              = Some (init_ControladorLuces 0%nat)) by reflexivity.
  split; [exact H|].
  destruct (encender_apagar 0%nat (init_ControladorLuces 0%nat)
              EjemploLuces.mundo H)
    as (w1 & w2 & E1 & _ & Ho1 & E1' & E2 & _ & Ho2 & _).
  exists w1, w2.
  split; [exact E1|]. split; [exact Ho1|]. split; [exact E1'|].
  split; [exact E2|]. rewrite Ho2, Ho1. reflexivity.
Defined.

Section Balance.

Lemma cuenta_app (m : string) (a b : list string) :
  cuenta m (a ++ b) = cuenta m a + cuenta m b.
Proof. unfold cuenta. rewrite filter_app, length_app. lia. Qed.

Lemma balance_app (a b : list string) :
  balance (a ++ b) = balance a + balance b.
Proof. unfold balance. rewrite !cuenta_app. lia. Qed.

Lemma cuenta_envios (m : string) (calls : list (Notificador * string)) :
  m = msg_encendidas \/ m = msg_apagadas ->
  cuenta m (map linea_de calls) = 0.
Proof.
  intros Hm. unfold cuenta.
  induction calls as [|[n msg] calls IH]; [reflexivity|].
  simpl. rewrite filter_cons_False; [exact IH|].
  unfold linea_de. simpl.
  destruct Hm as [-> | ->]; destruct n; simpl; discriminate.
Qed.

Lemma balance_envios (calls : list (Notificador * string)) :
  balance (map linea_de calls) = 0.
Proof.
  unfold balance.
  rewrite !cuenta_envios by (auto). reflexivity.
Qed.

Lemma verificar_movimiento_inv
    (c : loc) (x : ControladorLuces) (w w' : World) :
  controladores w !! c = Some x ->
  verificar_movimiento c w = Ok (tt, w') ->
  exists a, w' = tras_verificar c x a w.
Proof.
  intros Hc.
  destruct (sensores w !! sensor x) as [o|] eqn:Hs.
  - rewrite (verificar_movimiento_spec c x o w Hc Hs).
    destruct (en_alerta o) as [a|e]; cbn [rbind]; [|discriminate].
    intros H. injection H as <-. exists a. reflexivity.
  - unfold verificar_movimiento. unfold bind at 1.
    rewrite (get_controlador_Some c x w Hc). cbn [rbind].
    unfold bind, call_en_alerta, bind, get_sensor. rewrite Hs. cbn [rbind].
    discriminate.
Qed.

Lemma balance_tras_verificar
    (c : loc) (x : ControladorLuces) (a : bool) (w : World) :
  balance (stdout (tras_verificar c x a w)) - balance (stdout w)
  = Z.b2z a - Z.b2z (luces_encendidas x).
Proof.
  assert (E1 : balance [msg_encendidas] = 1) by (vm_compute; reflexivity).
  assert (E2 : balance [msg_apagadas; msg_sin_movimiento] = -1)
    by (vm_compute; reflexivity).
  assert (E3 : balance [msg_sin_movimiento] = 0) by (vm_compute; reflexivity).
  unfold tras_verificar.
  destruct a, (luces_encendidas x); cbn [stdout Z.b2z];
    rewrite ?balance_app, ?E1, ?E2, ?E3; lia.
Qed.

End Balance.

(** X15: over any sequence of readings on any sensors, movement checks of
    one controller and alert evaluations that runs to its end, the
    controller keeps its sensor, and the [print] calls with the text LUCES
    ENCENDIDAS less those with the text LUCES APAGADAS made on the way make
    the change of its flag: from lights off, the lights are on at the end
    exactly when one more call was made of the first than of the second,
    and otherwise as many.  (The count is of calls of [print] by their
    text, not of lines of the output.) *)
Theorem balance_de_luces (acciones : list accion) (c : loc) :
  forall (x : ControladorLuces) (w w' : World),
  controladores w !! c = Some x ->
  for_ acciones (ejecutar c) w = Ok (tt, w') ->
  exists x',
    controladores w' !! c = Some x' /\
    sensor x' = sensor x /\
    balance (stdout w') - balance (stdout w)
    = Z.b2z (luces_encendidas x') - Z.b2z (luces_encendidas x).
Proof.
  induction acciones as [|a acciones IH]; intros x w w' Hc H.
  - simpl in H. unfold ret in H. injection H as <-.
    exists x. split; [exact Hc|]. split; [reflexivity|]. lia.
  - rewrite for_cons in H.
    destruct (ejecutar c a w) as [[[] w1]|e] eqn:E1; cbn [rbind] in H;
      [|discriminate].
    assert (Hstep : exists x1,
      controladores w1 !! c = Some x1 /\ sensor x1 = sensor x /\
      balance (stdout w1) - balance (stdout w)
      = Z.b2z (luces_encendidas x1) - Z.b2z (luces_encendidas x)).
    { destruct a as [l valor| |g]; simpl in E1.
      - destruct (call_leer_controladores l valor w w1 E1) as [Ec Eo].
        exists x. rewrite Ec, Eo. split; [exact Hc|].
        split; [reflexivity|]. lia.
      - destruct (verificar_movimiento_inv c x w w1 Hc E1) as (b & ->).
        exists (mkControlador (sensor x) b).
        split; [exact (proj1 (tras_verificar_controlador c x b w Hc))|].
        split; [reflexivity|]. apply balance_tras_verificar.
      - destruct (for_evaluar_inv g (_sensores g) w w1 E1) as (calls & ->).
        exists x. split; [exact Hc|]. split; [reflexivity|].
        simpl. rewrite balance_app, balance_envios. lia. }
    destruct Hstep as (x1 & Hc1 & Hs1 & Hb1).
    destruct (IH x1 w1 w' Hc1 H) as (x' & Hc' & Hs' & Hb').
    exists x'. split; [exact Hc'|]. split; [congruence|]. lia.
Qed.

Lemma balance_de_luces_witness :
  let acciones :=
    [Verificar; Leer 0%nat 1; Leer 0%nat 1; Leer 0%nat 1; Leer 0%nat 1;
     Leer 0%nat 1; Verificar; Verificar]%float in
  controladores EjemploLuces.mundo !! 0%nat
    = Some (init_ControladorLuces 0%nat) /\
  exists w' x',
    for_ acciones (ejecutar 0%nat) EjemploLuces.mundo = Ok (tt, w') /\
    controladores w' !! 0%nat = Some x' /\
    sensor x' = 0%nat /\
    balance (stdout w') - balance (stdout EjemploLuces.mundo)
    = Z.b2z (luces_encendidas x') - 0.
Proof.
  intros acciones.
  assert (Hc : controladores EjemploLuces.mundo !! 0%nat
               = Some (init_ControladorLuces 0%nat)) by reflexivity.
  split; [exact Hc|].
  eexists.
  assert (E : for_ acciones (ejecutar 0%nat) EjemploLuces.mundo = Ok (tt, _))
    by (vm_compute; reflexivity).
  destruct (balance_de_luces acciones 0%nat (init_ControladorLuces 0%nat)
              EjemploLuces.mundo _ Hc E) as (x' & Hc' & Hs' & Hb').
  exists x'. split; [exact E|]. split; [exact Hc'|]. split; [exact Hs'|].
  exact Hb'.
Defined.

(** ** Equal readings *)

Section LecturasIguales.

Lemma finite_ratio (x : float) :
  is_finite x = true -> exists q, Py.as_integer_ratio x = Some q.
Proof.
  unfold is_finite. intros H.
  apply negb_true_iff, orb_false_iff in H. destruct H as [Hn Hi].
  unfold Py.as_integer_ratio, Prim2SF. rewrite Hn, Hi.
  destruct (is_zero x); [eexists; reflexivity|].
  destruct (Z.frexp x) as [r ex].
  destruct (shr_fexp _ _ _ _ _) as [sh e'].
  destruct (shr_m sh); [eexists; reflexivity| |eexists; reflexivity].
  destruct e'; eexists; reflexivity.
Qed.

Lemma nonfinite_replicate (n : nat) (x : float) :
  is_finite x = true -> statistics.nonfinite (replicate n x) = [].
Proof.
  intros H. unfold statistics.nonfinite.
  induction n as [|n IH]; simpl; [reflexivity|]. rewrite H. simpl. exact IH.
Qed.

Lemma exact_values_replicate (n : nat) (x : float) (q : Q) :
  Py.as_integer_ratio x = Some q ->
  statistics.exact_values (replicate n x) = replicate n q.
Proof.
  intros H. unfold statistics.exact_values.
  induction n as [|n IH]; simpl; [reflexivity|]. rewrite H. simpl.
  f_equal. exact IH.
Qed.

Lemma fold_Qplus_replicate (n : nat) (q : Q) : forall a : Q,
  (fold_left Qplus (replicate n q) a == a + (Z.of_nat n # 1) * q)%Q.
Proof.
  induction n as [|n IH]; intros a.
  - simpl. ring.
  - cbn [replicate fold_left]. rewrite IH.
    replace (Z.of_nat (S n) # 1)%Q with ((Z.of_nat n # 1) + 1)%Q.
    + ring.
    + unfold Qplus. simpl. f_equal. lia.
Qed.

Lemma stdev_replicate (n : nat) (x : float) :
  (2 <= n)%nat -> is_finite x = true ->
  statistics.stdev (replicate n x) = Ok zero.
Proof.
  intros Hn Hx. destruct (finite_ratio x Hx) as (q & Hq).
  rewrite stdev_finite;
    [|apply nonfinite_replicate; exact Hx | rewrite length_replicate; exact Hn].
  rewrite length_replicate, (exact_values_replicate n x q Hq).
  replace (map (fun q0 : Q => (q0 * q0)%Q) (replicate n q))
    with (replicate n (q * q)%Q)
    by (clear; induction n; simpl; [reflexivity | f_equal; assumption]).
  cbv zeta.
  match goal with
  | |- context [Qred ?e] => assert (E : Qred e = Qred (0 # 1))
  end.
  { apply Qred_complete. unfold statistics.Qsum.
    rewrite !fold_Qplus_replicate. unfold Qdiv. ring. }
  rewrite E. vm_compute. reflexivity.
Qed.

End LecturasIguales.

(** X16: a motion sensor whose buffer holds two or more readings that are
    all the same finite value has a deviation of exactly 0.0, since the sums
    are exact: it is in alert only for a threshold of 0.0 or less. *)
Theorem movimiento_lecturas_iguales
    (b : Sensor) (mov_umbral x : float) (n : nat) :
  _buffer b = replicate n x ->
  (2 <= n)%nat ->
  is_finite x = true ->
  statistics.stdev (_buffer b) = Ok zero /\
  en_alerta (SensorMovimento b mov_umbral) = Ok (mov_umbral <=? 0)%float.
Proof.
  intros Hb Hn Hx.
  assert (E : statistics.stdev (_buffer b) = Ok zero)
    by (rewrite Hb; apply stdev_replicate; assumption).
  split; [exact E|].
  unfold en_alerta. rewrite E, Hb, length_replicate.
  destruct (Z.ltb_spec (Z.of_nat n) 2); [lia | reflexivity].
Qed.

Lemma movimiento_lecturas_iguales_witness :
  let b := mkSensor "M1" 5 0 (replicate 5 0.1%float) in
  _buffer b = replicate 5 0.1%float /\ (2 <= 5)%nat /\
  is_finite 0.1 = true /\
  statistics.stdev (_buffer b) = Ok zero /\
  en_alerta (SensorMovimento b 1) = Ok (1 <=? 0)%float.
Proof.
  intros b.
  assert (Hn : (2 <= 5)%nat) by lia.
  assert (Hx : is_finite 0.1 = true) by (vm_compute; reflexivity).
  split; [reflexivity|]. split; [exact Hn|]. split; [exact Hx|].
  exact (movimiento_lecturas_iguales b 1%float 0.1%float 5 eq_refl Hn Hx).
Defined.

(** ** Exceptions on the way *)

(** X17: neither the manager nor the light controller catches anything: an
    exception of [en_alerta] leaves [verificar_movimiento] as it is, and it
    leaves [evaluar_y_notificar] when the sensors registered before the
    failing one were evaluated without an exception; the sensors registered
    after it are not looked at. *)
Theorem excepcion_se_propaga (o : SensorObj) (e : exn) (w : World) :
  en_alerta o = Raise e ->
  (forall (c : loc) (x : ControladorLuces),
     controladores w !! c = Some x ->
     sensores w !! sensor x = Some o ->
     verificar_movimiento c w = Raise e) /\
  (forall (g : GestorAlertas) (os1 os2 : list SensorObj)
          (l1 : list (Notificador * string)),
     Forall2 (fun l o' => sensores w !! l = Some o') (_sensores g)
       (os1 ++ o :: os2) ->
     envios os1 (_notificadores g) = Ok l1 ->
     evaluar_y_notificar g w = Raise e).
Proof.
  intros He. split.
  - intros c x Hc Hs.
    rewrite (verificar_movimiento_spec c x o w Hc Hs), He. reflexivity.
  - intros g os1 os2 l1 H H1. unfold evaluar_y_notificar.
    rewrite (evaluar_spec g (_sensores g) _ w H).
    rewrite (envios_raise (_notificadores g) o e os2 os1 l1 H1 He).
    reflexivity.
Qed.

Lemma excepcion_se_propaga_witness :
  let malo := SensorMovimento (mkSensor "M3" 5 0 [1; nan]%float) 1 in
  let w := mkWorld {[ 0%nat := Ejemplo.t1; 1%nat := malo; 2%nat := Ejemplo.v2 ]}
             {[ 0%nat := init_ControladorLuces 1%nat ]} [] in
  en_alerta malo = Raise AttributeError /\
  verificar_movimiento 0%nat w = Raise AttributeError /\
  evaluar_y_notificar Ejemplo.gestor w = Raise AttributeError.
Proof.
  intros malo w.
  assert (He : en_alerta malo = Raise AttributeError)
    by (vm_compute; reflexivity).
  destruct (excepcion_se_propaga malo AttributeError w He) as [Hv Hg].
  split; [exact He|]. split.
  - apply (Hv 0%nat (init_ControladorLuces 1%nat)); reflexivity.
  - apply (Hg Ejemplo.gestor [Ejemplo.t1] [Ejemplo.v2]
             [(Ejemplo.email, mensaje_de Ejemplo.t1);
              (Ejemplo.webhook, mensaje_de Ejemplo.t1)]).
    + repeat constructor.
    + vm_compute. reflexivity.
Defined.

(** ** NaN *)

(** X18: a comparison with NaN is false, so a temperature or a vibration
    sensor whose average is NaN (after readings of both infinities, or of a
    NaN) is not in alert whatever its threshold, and a sensor whose
    threshold is NaN is not in alert whatever its average. *)
Theorem alerta_con_nan (b : Sensor) (u : float) :
  (promedio b = Ok nan ->
   en_alerta (SensorTemperatura b u) = Ok false /\
   en_alerta (SensorVibracion b u) = Ok false) /\
  (forall p, promedio b = Ok p ->
   en_alerta (SensorTemperatura b nan) = Ok false /\
   en_alerta (SensorVibracion b nan) = Ok false).
Proof.
  assert (Hr : forall x : float, (x <=? nan)%float = false).
  { intros x. rewrite leb_spec. change (Prim2SF nan) with S754_nan.
    unfold SFleb, SFcompare. destruct (Prim2SF x) as [[|]|[|]| |[|] m e];
      reflexivity. }
  assert (Hl : forall x : float, (nan <=? x)%float = false).
  { intros x. rewrite leb_spec. change (Prim2SF nan) with S754_nan.
    reflexivity. }
  split.
  - intros Hp. unfold en_alerta, float_ge. rewrite Hp. cbn [rbind].
    change (abs nan) with nan. rewrite Hr. split; reflexivity.
  - intros p Hp. unfold en_alerta, float_ge. rewrite Hp. cbn [rbind].
    rewrite !Hl. split; reflexivity.
Qed.

Lemma alerta_con_nan_witness :
  let b := mkSensor "T1" 5 0 [infinity; neg_infinity]%float in
  promedio b = Ok nan /\
  en_alerta (SensorTemperatura b neg_infinity) = Ok false /\
  en_alerta (SensorVibracion b neg_infinity) = Ok false.
Proof.
  intros b.
  assert (Hp : promedio b = Ok nan) by (vm_compute; reflexivity).
  split; [exact Hp|].
  exact (proj1 (alerta_con_nan b neg_infinity) Hp).
Defined.
